(** * Oura chat agent: date-range selection and health-summary aggregation

    A shallow embedding of [src/oura.ts] (request helper, the sleep,
    activity and stress formatters, the five execute functions, the
    composite health summary, the setup check) together with the value
    types of [src/types.ts] that these read.  [formatReadinessData] is
    left as a parameter: it prints a temperature with [toFixed(1)], whose
    result depends on the binary value of the number.

    Conventions of the embedding.
    - A JavaScript string is a [string] (its UTF-8 bytes).
    - The numeric fields read by the summary ([score], [steps],
      [stress_high]) are integers in the Oura schema and are modelled as
      [Z]; quotients are taken exactly in [Q], so [Math.round] is the
      exact round-half-up of the quotient.
    - A field declared [f?: T | null] is an [optional T]
      ([undefined], [null] or a value); a parameter declared [p?: string]
      is an [option string] ([None] is [undefined]).
    - A promise is modelled by its settlement: [M T] is either a thrown
      value or a result.
    - Every [response += s] of the summary is recorded as one piece; the
      returned string is the concatenation of the pieces in order. *)

From Stdlib Require Import ZArith NArith QArith Qround Qabs List String Ascii Bool.
From Stdlib Require Import Lia Lqa DecimalString DecimalPos Sorted Permutation.
Import ListNotations.

Local Open Scope string_scope.
Local Open Scope Z_scope.

(** ** JavaScript values and built-ins used by the source *)

Module Js.

(** A property declared [f?: T | null]. *)
Inductive optional (A : Type) : Type :=
| undefined : optional A
| null : optional A
| value : A -> optional A.
Arguments undefined {A}.
Arguments null {A}.
Arguments value {A} _.

(** [x !== null && x !== undefined] *)
Definition present {A} (x : optional A) : bool :=
  match x with value _ => true | _ => false end.

(** [x !== null] *)
Definition not_null {A} (x : optional A) : bool :=
  match x with null => false | _ => true end.

(** Truthiness of a string: only the empty string is falsy. *)
Definition truthy_string (s : string) : bool :=
  match s with EmptyString => false | String _ _ => true end.

(** Truthiness of an optional string parameter ([undefined] is falsy). *)
Definition truthy (s : option string) : bool :=
  match s with None => false | Some s => truthy_string s end.

(** [n || 0] on an optional number. *)
Definition or_zero (x : optional Z) : Z :=
  match x with
  | value n => if n =? 0 then 0 else n
  | _ => 0
  end.

(** [Math.round]: nearest integer, ties towards +infinity. *)
Definition Math_round (q : Q) : Z := Qfloor (q + (1 # 2)).

(** [String(n)] / template interpolation of an integer. *)
Definition toString (n : Z) : string := NilZero.string_of_int (Z.to_int n).

(** Digits of a natural number grouped in threes from the right. *)
Fixpoint group3 (rev_digits : list ascii) (k : nat) (acc : string) : string :=
  match rev_digits with
  | [] => acc
  | d :: rest =>
      match k with
      | 3%nat => group3 rest 1%nat (String d (String "," acc))
      | _ => group3 rest (S k) (String d acc)
      end
  end.

(** [n.toLocaleString()] of an integer in the [en-US] host locale,
    the locale in which the summary shows [2,000]. *)
Definition toLocaleString (n : Z) : string :=
  let digits := list_ascii_of_string (toString (Z.abs n)) in
  let body := group3 (rev digits) 0%nat "" in
  if n <? 0 then String "-" body else body.

(** Stable insertion of [x] in front of the first element that the
    comparator places strictly after it. *)
Fixpoint insert {A} (cmp : A -> A -> Z) (x : A) (l : list A) : list A :=
  match l with
  | [] => [x]
  | y :: l' => if cmp x y <=? 0 then x :: y :: l' else y :: insert cmp x l'
  end.

Fixpoint sort_values {A} (cmp : A -> A -> Z) (l : list A) : list A :=
  match l with
  | [] => []
  | x :: l' => insert cmp x (sort_values cmp l')
  end.

Fixpoint values {A} (l : list (optional A)) : list A :=
  match l with
  | [] => []
  | value a :: l' => a :: values l'
  | _ :: l' => values l'
  end.

Definition is_undefined {A} (x : optional A) : bool :=
  match x with undefined => true | _ => false end.

Definition is_null {A} (x : optional A) : bool :=
  match x with null => true | _ => false end.

(** [Array.prototype.sort(compareFn)]: a stable sort in which the
    comparator is called on values only and every [undefined] element
    is moved to the end.  The comparator is handed the elements as
    [optional] values, as the source's callback receives them. *)
Definition sort {A} (cmp : optional A -> optional A -> Z)
           (l : list (optional A)) : list (optional A) :=
  sort_values cmp (filter (fun x => negb (is_undefined x)) l)
    ++ filter is_undefined l.

(** [Array.prototype.pop()] result: the last element, [undefined] on
    an empty array. *)
Definition pop {A} (l : list (optional A)) : optional A :=
  last l undefined.

End Js.
Import Js.

(** Line feed, the source's [\n]. *)
Definition LF : string := String (ascii_of_nat 10) EmptyString.

(** ** Thrown values and settled promises *)

(** What a rejected promise carries: the source's own error class, or any
    other thrown value (a network failure, a JSON syntax error). *)
Inductive Exn : Type :=
| OuraAPIUserError (message userMessage : string)
| OtherError (message : string).

(** An awaited computation: thrown value on the left, result on the right. *)
Definition M (A : Type) : Type := (Exn + A)%type.

Definition ret {A} (a : A) : M A := inr a.
Definition throw {A} (e : Exn) : M A := inl e.
Definition bind {A B} (m : M A) (k : A -> M B) : M B :=
  match m with inl e => inl e | inr a => k a end.

Notation "x <- m ;; k" := (bind m (fun x => k))
  (at level 61, m at next level, right associativity).

(** [try { ... } catch (error) { ... }] around a computation whose handler
    returns a value. *)
Definition try_catch {A} (body : M A) (handler : Exn -> A) : A :=
  match body with inl e => handler e | inr a => a end.

(** One entry of the array [Promise.allSettled] resolves to. *)
Inductive PromiseSettledResult (T : Type) : Type :=
| fulfilled (v : T)
| rejected (reason : Exn).
Arguments fulfilled {T} v.
Arguments rejected {T} reason.

(** [Promise.allSettled] on one promise: it never rejects. *)
Definition settle {T} (p : M T) : PromiseSettledResult T :=
  match p with inl e => rejected e | inr v => fulfilled v end.

Inductive Status : Type := status_fulfilled | status_rejected.

Definition status {T} (r : PromiseSettledResult T) : Status :=
  match r with fulfilled _ => status_fulfilled | rejected _ => status_rejected end.

Definition Status_eqb (a b : Status) : bool :=
  match a, b with
  | status_fulfilled, status_fulfilled => true
  | status_rejected, status_rejected => true
  | _, _ => false
  end.

(** ** The records of [types.ts] that [oura.ts] reads *)

Module Types.

Record SleepContributors : Type := {
  sc_deep_sleep : optional Z;
  sc_efficiency : optional Z;
  sc_latency : optional Z;
  sc_rem_sleep : optional Z;
  sc_restfulness : optional Z;
  sc_timing : optional Z;
  sc_total_sleep : optional Z
}.

Record DailySleepModel : Type := {
  sleep_id : string;
  sleep_contributors : SleepContributors;
  sleep_day : string;
  sleep_score : optional Z;
  sleep_timestamp : string
}.

Record ActivityContributors : Type := {
  ac_meet_daily_targets : optional Z;
  ac_move_every_hour : optional Z;
  ac_recovery_time : optional Z;
  ac_stay_active : optional Z;
  ac_training_frequency : optional Z;
  ac_training_volume : optional Z
}.

(** The fields of [DailyActivityModel] that the source reads; the MET
    and time-in-zone fields are never consulted. *)
Record DailyActivityModel : Type := {
  activity_id : string;
  activity_score : optional Z;
  activity_active_calories : Z;
  activity_contributors : ActivityContributors;
  activity_steps : Z;
  activity_total_calories : Z;
  activity_day : string;
  activity_timestamp : string
}.

Inductive DailyStressSummary : Type := restored | normal | stressful.

Record DailyStressModel : Type := {
  stress_id : string;
  stress_day : string;
  stress_high : optional Z;
  recovery_high : optional Z;
  day_summary : optional DailyStressSummary
}.

Record ReadinessContributors : Type := {
  rc_activity_balance : optional Z;
  rc_body_temperature : optional Z;
  rc_hrv_balance : optional Z;
  rc_previous_day_activity : optional Z;
  rc_previous_night : optional Z;
  rc_recovery_index : optional Z;
  rc_resting_heart_rate : optional Z;
  rc_sleep_balance : optional Z
}.

Record DailyReadinessModel : Type := {
  readiness_id : string;
  readiness_contributors : ReadinessContributors;
  readiness_day : string;
  readiness_score : optional Z;
  readiness_temperature_deviation : optional Q;
  readiness_temperature_trend_deviation : optional Q;
  readiness_timestamp : string
}.

(** [MultiDocumentResponse_*]: one page of daily documents. *)
Record MultiDocumentResponse (D : Type) : Type := {
  data : list D;
  next_token : optional string
}.
Arguments data {D} _.
Arguments next_token {D} _.

Definition DailyStressSummary_to_string (s : DailyStressSummary) : string :=
  match s with
  | restored => "restored"
  | normal => "normal"
  | stressful => "stressful"
  end.

Definition DailyStressSummary_eqb (a b : DailyStressSummary) : bool :=
  match a, b with
  | restored, restored => true
  | normal, normal => true
  | stressful, stressful => true
  | _, _ => false
  end.

(** [a === b] on two entries of the label array. *)
Definition strict_eq (a b : optional DailyStressSummary) : bool :=
  match a, b with
  | undefined, undefined => true
  | null, null => true
  | value x, value y => DailyStressSummary_eqb x y
  | _, _ => false
  end.

End Types.
Import Types.

(** ** Calendar dates and the period resolver ([utils.ts]) *)

Module Utils.

Record Date : Type := mkDate { year : Z; month : Z; day : Z }.

Definition is_leap_year (y : Z) : bool :=
  (y mod 4 =? 0) && (negb (y mod 100 =? 0) || (y mod 400 =? 0)).

Definition days_in_month (y m : Z) : Z :=
  if m =? 2 then (if is_leap_year y then 29 else 28)
  else if (m =? 4) || (m =? 6) || (m =? 9) || (m =? 11) then 30
  else 31.

(** A day of the proleptic Gregorian calendar. *)
Definition valid_date (d : Date) : Prop :=
  1 <= month d <= 12 /\ 1 <= day d <= days_in_month (year d) (month d).

Definition valid_dateb (d : Date) : bool :=
  (1 <=? month d) && (month d <=? 12) && (1 <=? day d)
  && (day d <=? days_in_month (year d) (month d)).

(** The calendar day before [d]. *)
Definition previous_day (d : Date) : Date :=
  if 1 <? day d then mkDate (year d) (month d) (day d - 1)
  else if 1 <? month d
       then mkDate (year d) (month d - 1) (days_in_month (year d) (month d - 1))
       else mkDate (year d - 1) 12 31.

(** The calendar day after [d]. *)
Definition next_day (d : Date) : Date :=
  if day d <? days_in_month (year d) (month d)
  then mkDate (year d) (month d) (day d + 1)
  else if month d <? 12 then mkDate (year d) (month d + 1) 1
       else mkDate (year d + 1) 1 1.

(** [d] minus [n] calendar days. *)
Definition minus_days (d : Date) (n : nat) : Date := Nat.iter n previous_day d.

(** Chronological order on dates. *)
Definition date_leb (a b : Date) : bool :=
  (year a <? year b)
  || ((year a =? year b)
      && ((month a <? month b) || ((month a =? month b) && (day a <=? day b)))).

Definition digit (n : Z) : ascii := ascii_of_nat (48 + Z.to_nat (n mod 10)).

Definition pad2 (n : Z) : string :=
  String (digit (n / 10)) (String (digit n) EmptyString).

Definition pad4 (n : Z) : string :=
  String (digit (n / 1000)) (String (digit (n / 100)) (pad2 n)).

(** [YYYY-MM-DD] rendering of a date. *)
Definition formatDate (d : Date) : string :=
  pad4 (year d) ++ "-" ++ pad2 (month d) ++ "-" ++ pad2 (day d).

Definition is_digit (c : ascii) : bool :=
  let n := nat_of_ascii c in (48 <=? n)%nat && (n <=? 57)%nat.

(** Recogniser of the shape [YYYY-MM-DD]: ten characters, digits around
    two dashes. *)
Definition is_YYYY_MM_DD (s : string) : bool :=
  match list_ascii_of_string s with
  | [y1; y2; y3; y4; d1; m1; m2; d2; a1; a2] =>
      is_digit y1 && is_digit y2 && is_digit y3 && is_digit y4
      && Ascii.eqb d1 "-" && is_digit m1 && is_digit m2
      && Ascii.eqb d2 "-" && is_digit a1 && is_digit a2
  | _ => false
  end.

Record DateRange : Type := { start_date : string; end_date : string }.

(** The range between two dates, both inclusive, as the strings sent to
    the API. *)
Definition range_of (s e : Date) : DateRange :=
  {| start_date := formatDate s; end_date := formatDate e |}.

(** Modelled from the spec: [getDateRange] of [utils.ts], which is
    imported by [oura.ts] but is not part of the sources at hand.  The
    spec's period resolver, section 4.1: [today] and [yesterday] are
    single-day ranges, [week] is today minus 6 days through today,
    [month] is today minus 29 days through today, and every other token
    falls back to the [week] range; tokens are matched case-sensitively
    and dates are rendered [YYYY-MM-DD].  The current date of the host
    is the argument [today]. *)
Definition getDateRange (today : Date) (period : string) : DateRange :=
  if (period =? "today")%string then range_of today today
  else if (period =? "yesterday")%string
       then range_of (minus_days today 1) (minus_days today 1)
  else if (period =? "week")%string then range_of (minus_days today 6) today
  else if (period =? "month")%string then range_of (minus_days today 29) today
  else range_of (minus_days today 6) today.

End Utils.
Import Utils.

(** ** [oura.ts] *)

Module Oura.

(** What [fetch] is called with. *)
Record Request : Type := {
  url : string;
  searchParams : list (string * string);
  headers : list (string * string)
}.

(** What [fetch] resolves to: the status line and the two body readers
    the source awaits, [text()] and [json()] (the latter already cast to
    the caller's [T], as [response.json() as T] does). *)
Record Response (T : Type) : Type := {
  response_status : Z;
  response_statusText : string;
  response_text : M string;
  response_json : M T
}.
Arguments response_status {T} _.
Arguments response_statusText {T} _.
Arguments response_text {T} _.
Arguments response_json {T} _.

(** [response.ok]: a status in the 200-299 range. *)
Definition response_ok {T} (r : Response T) : bool :=
  (200 <=? response_status r) && (response_status r <=? 299).

Definition Fetch (T : Type) : Type := Request -> M (Response T).

Definition setupRequiredMessage : string :=
  "🔑 **Setup Required**: Please configure your Oura API token." ++ LF ++ LF ++
  "**Steps to fix:**" ++ LF ++
  "1. Get your token from [Oura Cloud](https://cloud.ouraring.com/personal-access-tokens)" ++ LF ++
  "2. Add it to your `.dev.vars` file as `OURA_API_TOKEN=your_token_here`" ++ LF ++
  "3. Restart the application" ++ LF ++ LF ++
  "*This is a one-time setup step required to access your Oura Ring data.*".

Definition authenticationFailedMessage : string :=
  "🚫 **Authentication Failed**: Your Oura API token is invalid or expired." ++ LF ++ LF ++
  "**Steps to fix:**" ++ LF ++
  "1. Check your token at [Oura Cloud](https://cloud.ouraring.com/personal-access-tokens)" ++ LF ++
  "2. Generate a new token if needed" ++ LF ++
  "3. Update your `.dev.vars` file with the new token" ++ LF ++
  "4. Restart the application".

Definition accessDeniedMessage : string :=
  "⛔ **Access Denied**: Cannot access your Oura data." ++ LF ++ LF ++
  "**Possible causes:**" ++ LF ++
  "• Your Oura subscription may have expired" ++ LF ++
  "• Your API token doesn't have the required permissions" ++ LF ++
  "• Your account may be restricted" ++ LF ++ LF ++
  "*Please check your Oura account status and token permissions.*".

Definition rateLimitMessage : string :=
  "⏳ **Rate Limit Reached**: Too many requests to the Oura API." ++ LF ++ LF ++
  "Please wait a few minutes before trying again. The Oura API allows 5000 requests per 5-minute period.".

(** [makeOuraRequest<T>(endpoint, params)].  [OURA_API_TOKEN] is the value
    of [process.env.OURA_API_TOKEN] and [fetch] the network. *)
Definition makeOuraRequest {T} (OURA_API_TOKEN : option string) (fetch : Fetch T)
    (endpoint : string) (params : list (string * string)) : M T :=
  match OURA_API_TOKEN with
  | Some API_TOKEN =>
      if negb (truthy_string API_TOKEN)
      then throw (OuraAPIUserError "Oura API token not configured" setupRequiredMessage)
      else
        let baseUrl := "https://api.ouraring.com/v2" in
        let request :=
          {| url := baseUrl ++ endpoint;
             searchParams := params;
             headers := [("Authorization", "Bearer " ++ API_TOKEN);
                         ("Content-Type", "application/json")] |} in
        response <- fetch request ;;
        if negb (response_ok response) then
          if response_status response =? 401 then
            throw (OuraAPIUserError "Invalid Oura API token" authenticationFailedMessage)
          else if response_status response =? 403 then
            throw (OuraAPIUserError "Access forbidden" accessDeniedMessage)
          else if response_status response =? 429 then
            throw (OuraAPIUserError "Rate limit exceeded" rateLimitMessage)
          else
            let errorMessage :=
              "Oura API error: " ++ toString (response_status response) ++ " "
              ++ response_statusText response in
            let errorMessage :=
              match response_text response with
              | inr errorBody =>
                  if truthy_string errorBody
                  then errorMessage ++ LF ++ "Details: " ++ errorBody
                  else errorMessage
              | inl _ => errorMessage
              end in
            throw (OuraAPIUserError errorMessage
                     ("❌ **API Error**: Unable to fetch your Oura data ("
                      ++ toString (response_status response) ++ ")." ++ LF ++ LF ++
                      "This might be a temporary issue. Please try again in a few moments."))
        else response_json response
  | None => throw (OuraAPIUserError "Oura API token not configured" setupRequiredMessage)
  end.

(** The environment of one call: the configured token, the host's current
    date, and the network restricted to each of the four endpoints. *)
Record World : Type := {
  OURA_API_TOKEN : option string;
  today : Date;
  fetch_daily_sleep : Fetch (MultiDocumentResponse DailySleepModel);
  fetch_daily_activity : Fetch (MultiDocumentResponse DailyActivityModel);
  fetch_daily_stress : Fetch (MultiDocumentResponse DailyStressModel);
  fetch_daily_readiness : Fetch (MultiDocumentResponse DailyReadinessModel)
}.

(** The argument object of the execute functions. *)
Record Args : Type := {
  period : string;
  arg_start_date : option string;
  arg_end_date : option string
}.

(** The block under [// Determine date range], which opens each of the five
    execute functions in the same words:
    [if (start_date && end_date) dateRange = { start_date, end_date };
     else dateRange = getDateRange(period);] *)
Definition determineDateRange (w : World) (a : Args) : DateRange :=
  if truthy (arg_start_date a) && truthy (arg_end_date a) then
    match arg_start_date a, arg_end_date a with
    | Some s, Some e => {| start_date := s; end_date := e |}
    | _, _ => getDateRange (today w) (period a)
    end
  else getDateRange (today w) (period a).

Definition queryParams (dateRange : DateRange) : list (string * string) :=
  [("start_date", start_date dateRange); ("end_date", end_date dateRange)].

(** The [catch] clause shared by the five execute functions, up to the
    name of the metric in the fallback text. *)
Definition catchHandler (fallback : string) (error : Exn) : string :=
  match error with
  | OuraAPIUserError _ userMessage => userMessage
  | OtherError _ => fallback
  end.

Section SingleMetric.

(** The four [format*Data] helpers render a record list; the statements
    below hold whatever they render. *)
Variable formatSleepData : list DailySleepModel -> string.
Variable formatActivityData : list DailyActivityModel -> string.
Variable formatStressData : list DailyStressModel -> string.
Variable formatReadinessData : list DailyReadinessModel -> string.

Definition executeGetOuraSleepData (w : World) (a : Args) : string :=
  try_catch
    (let dateRange := determineDateRange w a in
     let params := queryParams dateRange in
     response <- makeOuraRequest (OURA_API_TOKEN w) (fetch_daily_sleep w)
                   "/usercollection/daily_sleep" params ;;
     ret (formatSleepData (data response)))
    (catchHandler "❌ **Error**: Unable to fetch sleep data. Please try again later.").

Definition executeGetOuraActivityData (w : World) (a : Args) : string :=
  try_catch
    (let dateRange := determineDateRange w a in
     let params := queryParams dateRange in
     response <- makeOuraRequest (OURA_API_TOKEN w) (fetch_daily_activity w)
                   "/usercollection/daily_activity" params ;;
     ret (formatActivityData (data response)))
    (catchHandler "❌ **Error**: Unable to fetch activity data. Please try again later.").

Definition executeGetOuraStressData (w : World) (a : Args) : string :=
  try_catch
    (let dateRange := determineDateRange w a in
     let params := queryParams dateRange in
     response <- makeOuraRequest (OURA_API_TOKEN w) (fetch_daily_stress w)
                   "/usercollection/daily_stress" params ;;
     ret (formatStressData (data response)))
    (catchHandler "❌ **Error**: Unable to fetch stress data. Please try again later.").

Definition executeGetOuraReadinessData (w : World) (a : Args) : string :=
  try_catch
    (let dateRange := determineDateRange w a in
     let params := queryParams dateRange in
     response <- makeOuraRequest (OURA_API_TOKEN w) (fetch_daily_readiness w)
                   "/usercollection/daily_readiness" params ;;
     ret (formatReadinessData (data response)))
    (catchHandler "❌ **Error**: Unable to fetch readiness data. Please try again later.").

End SingleMetric.

(** *** The composite health summary *)

(** [xs.reduce((sum, d) => sum + f(d), 0)] *)
Definition reduce_sum {D} (f : D -> Z) (xs : list D) : Z :=
  fold_left (fun sum d => sum + f d) xs 0.

(** [total / xs.length], the quotient of two integers as a number. *)
Definition divide_by_length {D} (total : Z) (xs : list D) : Q :=
  (inject_Z total / inject_Z (Z.of_nat (List.length xs)))%Q.

Definition length_text {D} (xs : list D) : string := toString (Z.of_nat (List.length xs)).

(** [// Process sleep data] *)
Definition sleepLine
    (sleepResponse : PromiseSettledResult (MultiDocumentResponse DailySleepModel))
    : string :=
  match sleepResponse with
  | fulfilled v =>
      if (0 <? List.length (data v))%nat then
        let validSleepData := filter (fun d => present (sleep_score d)) (data v) in
        if (0 <? List.length validSleepData)%nat then
          let avgSleepScore :=
            divide_by_length
              (reduce_sum (fun d => or_zero (sleep_score d)) validSleepData)
              validSleepData in
          "😴 **Sleep**: Average score " ++ toString (Math_round avgSleepScore)
          ++ "/100 (" ++ length_text (data v) ++ " days)" ++ LF
        else "😴 **Sleep**: Data available but no scores calculated" ++ LF
      else "😴 **Sleep**: No data available" ++ LF
  | rejected _ => "😴 **Sleep**: No data available" ++ LF
  end.

(** [// Process activity data] *)
Definition activityLine
    (activityResponse : PromiseSettledResult (MultiDocumentResponse DailyActivityModel))
    : string :=
  match activityResponse with
  | fulfilled v =>
      if (0 <? List.length (data v))%nat then
        let validActivityData :=
          filter (fun d => present (activity_score d)) (data v) in
        if (0 <? List.length validActivityData)%nat then
          let avgActivityScore :=
            divide_by_length
              (reduce_sum (fun d => or_zero (activity_score d)) validActivityData)
              validActivityData in
          let totalSteps := reduce_sum activity_steps (data v) in
          let avgSteps := Math_round (divide_by_length totalSteps (data v)) in
          "🏃 **Activity**: Average score " ++ toString (Math_round avgActivityScore)
          ++ "/100, " ++ toLocaleString avgSteps ++ " avg steps/day" ++ LF
        else
          let totalSteps := reduce_sum activity_steps (data v) in
          let avgSteps := Math_round (divide_by_length totalSteps (data v)) in
          "🏃 **Activity**: " ++ toLocaleString avgSteps
          ++ " avg steps/day (no scores available)" ++ LF
      else "🏃 **Activity**: No data available" ++ LF
  | rejected _ => "🏃 **Activity**: No data available" ++ LF
  end.

(** [summaries.filter(v => v === a).length] *)
Definition occurrences (summaries : list (optional DailyStressSummary))
    (a : optional DailyStressSummary) : Z :=
  Z.of_nat (List.length (filter (fun v => strict_eq v a) summaries)).

(** The [mostCommonSummary] of the stress block. *)
Definition mostCommonSummary (stressData : list DailyStressModel)
    : optional DailyStressSummary :=
  let summaries := filter not_null (map day_summary stressData) in
  if (0 <? List.length summaries)%nat
  then pop (sort (fun a b => occurrences summaries a - occurrences summaries b)
              summaries)
  else null.

(** [mostCommonSummary || 'N/A'] *)
Definition summary_or_NA (s : optional DailyStressSummary) : string :=
  match s with
  | value l => DailyStressSummary_to_string l
  | _ => "N/A"
  end.

(** [// Process stress data] *)
Definition stressLine
    (stressResponse : PromiseSettledResult (MultiDocumentResponse DailyStressModel))
    : string :=
  match stressResponse with
  | fulfilled v =>
      if (0 <? List.length (data v))%nat then
        let stressData := data v in
        let validStressData := filter (fun d => present (stress_high d)) stressData in
        if (0 <? List.length validStressData)%nat then
          let avgStressTime :=
            divide_by_length
              (reduce_sum (fun d => or_zero (stress_high d)) validStressData)
              validStressData in
          "😰 **Stress**: " ++ toString (Math_round (avgStressTime / 60)%Q)
          ++ " avg minutes/day, mostly "
          ++ summary_or_NA (mostCommonSummary stressData) ++ LF
        else "😰 **Stress**: Data available but no stress times calculated" ++ LF
      else "😰 **Stress**: No data available" ++ LF
  | rejected _ => "😰 **Stress**: No data available" ++ LF
  end.

(** [// Process readiness data] *)
Definition readinessLine
    (readinessResponse : PromiseSettledResult (MultiDocumentResponse DailyReadinessModel))
    : string :=
  match readinessResponse with
  | fulfilled v =>
      if (0 <? List.length (data v))%nat then
        let validReadinessData :=
          filter (fun d => present (readiness_score d)) (data v) in
        if (0 <? List.length validReadinessData)%nat then
          let avgReadinessScore :=
            divide_by_length
              (reduce_sum (fun d => or_zero (readiness_score d)) validReadinessData)
              validReadinessData in
          "⚡ **Readiness**: Average score " ++ toString (Math_round avgReadinessScore)
          ++ "/100 (" ++ length_text (data v) ++ " days)" ++ LF
        else "⚡ **Readiness**: Data available but no scores calculated" ++ LF
      else "⚡ **Readiness**: No data available" ++ LF
  | rejected _ => "⚡ **Readiness**: No data available" ++ LF
  end.

Definition someDataTypesInsight : string :=
  "• Some data types may not be available for your account or ring model" ++ LF.

Definition noDataFoundInsight : string :=
  "• No data found - make sure to sync your Oura ring with the mobile app" ++ LF.

Definition limitedDataInsight : string :=
  "• Limited data available - consider syncing your ring more regularly" ++ LF.

Definition goodCoverageInsight : string :=
  "• Good data coverage - keep up the consistent tracking!" ++ LF.

(** [// Check if any requests failed]: what is appended for it. *)
Definition failedRequestsPieces (statuses : list Status) : list string :=
  let failedRequests := filter (fun r => Status_eqb r status_rejected) statuses in
  if (0 <? List.length failedRequests)%nat then [someDataTypesInsight] else [].

(** [r.status === 'fulfilled' ? r.value.data.length : 0] *)
Definition dataLength {D} (r : PromiseSettledResult (MultiDocumentResponse D)) : Z :=
  match r with
  | fulfilled v => Z.of_nat (List.length (data v))
  | rejected _ => 0
  end.

(** [// Check for data availability]: the sum runs over the sleep,
    activity and readiness responses. *)
Definition totalDataPoints
    (sleepResponse : PromiseSettledResult (MultiDocumentResponse DailySleepModel))
    (activityResponse : PromiseSettledResult (MultiDocumentResponse DailyActivityModel))
    (readinessResponse : PromiseSettledResult (MultiDocumentResponse DailyReadinessModel))
    : Z :=
  fold_left (fun sum count => sum + count)
    [dataLength sleepResponse; dataLength activityResponse;
     dataLength readinessResponse] 0.

Definition coverageInsight (totalDataPoints : Z) : string :=
  if totalDataPoints =? 0 then noDataFoundInsight
  else if totalDataPoints <? 3 then limitedDataInsight
  else goodCoverageInsight.

(** The strings appended to [response], in order, once the four requests
    have settled. *)
Definition summaryPieces (dateRange : DateRange)
    (sleepResponse : PromiseSettledResult (MultiDocumentResponse DailySleepModel))
    (activityResponse : PromiseSettledResult (MultiDocumentResponse DailyActivityModel))
    (stressResponse : PromiseSettledResult (MultiDocumentResponse DailyStressModel))
    (readinessResponse : PromiseSettledResult (MultiDocumentResponse DailyReadinessModel))
    : list string :=
  ["📊 **Comprehensive Health Summary**" ++ LF ++ LF;
   "📅 **Period**: " ++ start_date dateRange ++ " to " ++ end_date dateRange
   ++ LF ++ LF;
   sleepLine sleepResponse;
   activityLine activityResponse;
   stressLine stressResponse;
   readinessLine readinessResponse;
   LF ++ "💡 **Key Insights**:" ++ LF]
  ++ failedRequestsPieces
       [status sleepResponse; status activityResponse;
        status stressResponse; status readinessResponse]
  ++ [coverageInsight
        (totalDataPoints sleepResponse activityResponse readinessResponse)].

(** The composite report: the pieces joined in the order of the appends. *)
Definition aggregate (dateRange : DateRange)
    (sleepResponse : PromiseSettledResult (MultiDocumentResponse DailySleepModel))
    (activityResponse : PromiseSettledResult (MultiDocumentResponse DailyActivityModel))
    (stressResponse : PromiseSettledResult (MultiDocumentResponse DailyStressModel))
    (readinessResponse : PromiseSettledResult (MultiDocumentResponse DailyReadinessModel))
    : string :=
  String.concat ""
    (summaryPieces dateRange sleepResponse activityResponse stressResponse
       readinessResponse).

(** The four settled requests of [Promise.allSettled([...])]. *)
Definition settledSleep (w : World) (params : list (string * string)) :=
  settle (makeOuraRequest (OURA_API_TOKEN w) (fetch_daily_sleep w)
            "/usercollection/daily_sleep" params).

Definition settledActivity (w : World) (params : list (string * string)) :=
  settle (makeOuraRequest (OURA_API_TOKEN w) (fetch_daily_activity w)
            "/usercollection/daily_activity" params).

Definition settledStress (w : World) (params : list (string * string)) :=
  settle (makeOuraRequest (OURA_API_TOKEN w) (fetch_daily_stress w)
            "/usercollection/daily_stress" params).

Definition settledReadiness (w : World) (params : list (string * string)) :=
  settle (makeOuraRequest (OURA_API_TOKEN w) (fetch_daily_readiness w)
            "/usercollection/daily_readiness" params).

(** The body of the [try] block of [executeGetOuraHealthSummary]. *)
Definition healthSummaryBody (w : World) (a : Args) : M string :=
  let dateRange := determineDateRange w a in
  let params := queryParams dateRange in
  let sleepResponse := settledSleep w params in
  let activityResponse := settledActivity w params in
  let stressResponse := settledStress w params in
  let readinessResponse := settledReadiness w params in
  ret (aggregate dateRange sleepResponse activityResponse stressResponse
         readinessResponse).

Definition healthSummaryFallback : string :=
  "❌ **Error**: Unable to fetch health summary. Please try again later.".

Definition executeGetOuraHealthSummary (w : World) (a : Args) : string :=
  try_catch (healthSummaryBody w a) (catchHandler healthSummaryFallback).

End Oura.
Import Oura.

(** ** The formatting helpers and the setup check of [oura.ts] *)

(** Truthiness of an optional number: [undefined], [null] and [0] are falsy. *)
Definition truthy_number (x : optional Z) : bool :=
  match x with
  | value n => negb (n =? 0)
  | _ => false
  end.

(** Truthiness of an optional string field. *)
Definition truthy_text (x : optional string) : bool :=
  match x with
  | value s => truthy_string s
  | _ => false
  end.

Definition code (c : ascii) : N := N_of_ascii c.

(** The white space and line terminators of ECMAScript that take one
    byte in UTF-8: TAB, LF, VT, FF, CR and SPACE. *)
Definition ws1 (a : ascii) : bool :=
  ((9 <=? code a) && (code a <=? 13))%N || (code a =? 32)%N.

(** Two bytes: U+00A0. *)
Definition ws2 (a b : ascii) : bool :=
  ((code a =? 194) && (code b =? 160))%N.

(** Three bytes: U+1680, U+2000 to U+200A, U+2028, U+2029, U+202F,
    U+205F, U+3000 and U+FEFF. *)
Definition ws3 (a b c : ascii) : bool :=
  (((code a =? 225) && (code b =? 154) && (code c =? 128))
   || ((code a =? 226) && (code b =? 128)
       && (((128 <=? code c) && (code c <=? 138))
           || (code c =? 168) || (code c =? 169) || (code c =? 175)))
   || ((code a =? 226) && (code b =? 129) && (code c =? 159))
   || ((code a =? 227) && (code b =? 128) && (code c =? 128))
   || ((code a =? 239) && (code b =? 187) && (code c =? 191)))%N.

(** Drops the white space a byte list begins with; the recognisers are
    parameters so that the same walk serves both ends. *)
Fixpoint strip (w1 : ascii -> bool) (w2 : ascii -> ascii -> bool)
    (w3 : ascii -> ascii -> ascii -> bool) (l : list ascii) : list ascii :=
  match l with
  | [] => []
  | a :: t1 =>
      if w1 a then strip w1 w2 w3 t1
      else
        match t1 with
        | [] => l
        | b :: t2 =>
            if w2 a b then strip w1 w2 w3 t2
            else
              match t2 with
              | [] => l
              | c :: t3 => if w3 a b c then strip w1 w2 w3 t3 else l
              end
        end
  end.

Definition trimStart (l : list ascii) : list ascii := strip ws1 ws2 ws3 l.

Definition trimEnd (l : list ascii) : list ascii :=
  rev (strip ws1 (fun a b => ws2 b a) (fun a b c => ws3 c b a) (rev l)).

(** [String.prototype.trim] on the UTF-8 bytes of a string. *)
Definition trim (s : string) : string :=
  string_of_list_ascii (trimEnd (trimStart (list_ascii_of_string s))).

(** One entry of [contributorItems]: pushed when the sub-score is truthy. *)
Definition contributorItem (label : string) (x : optional Z) : list string :=
  match x with
  | value n => if n =? 0 then [] else [label ++ ": " ++ toString n]
  | _ => []
  end.

(** [`${score}/100`] or ['N/A']. *)
Definition scoreText (score : optional Z) : string :=
  match score with
  | value n => if n =? 0 then "N/A" else toString n ++ "/100"
  | _ => "N/A"
  end.

(** The contributors line, appended when at least one item was pushed. *)
Definition contributorsLine (contributorItems : list string) : string :=
  if (0 <? List.length contributorItems)%nat
  then "• **Contributors**: " ++ String.concat ", " contributorItems ++ LF
  else "".

Definition sleepContributorItems (contributors : SleepContributors) : list string :=
  contributorItem "Total Sleep" (sc_total_sleep contributors)
  ++ contributorItem "Efficiency" (sc_efficiency contributors)
  ++ contributorItem "Restfulness" (sc_restfulness contributors)
  ++ contributorItem "REM Sleep" (sc_rem_sleep contributors)
  ++ contributorItem "Deep Sleep" (sc_deep_sleep contributors)
  ++ contributorItem "Sleep Latency" (sc_latency contributors)
  ++ contributorItem "Timing" (sc_timing contributors).

(** What one iteration of the loop of [formatSleepData] appends.  The
    [contributors] object is a required field, so the guard
    [if (contributors)] is passed. *)
Definition sleepBlock (sleep : DailySleepModel) : string :=
  "📅 **" ++ sleep_day sleep ++ "**" ++ LF
  ++ "• **Score**: " ++ scoreText (sleep_score sleep) ++ LF
  ++ contributorsLine (sleepContributorItems (sleep_contributors sleep))
  ++ LF.

Definition noSleepDataMessage : string :=
  "😴 **No sleep data found** for the specified period." ++ LF ++ LF
  ++ "This might happen if:" ++ LF
  ++ "• You haven't synced your Oura ring recently" ++ LF
  ++ "• You haven't worn your ring during sleep" ++ LF
  ++ "• The data is still being processed".

Definition formatSleepData (sleepData : list DailySleepModel) : string :=
  if (List.length sleepData =? 0)%nat then noSleepDataMessage
  else trim (fold_left (fun response sleep => response ++ sleepBlock sleep)
               sleepData ("😴 **Sleep Summary**" ++ LF ++ LF)).

Definition activityContributorItems (contributors : ActivityContributors)
    : list string :=
  contributorItem "Daily Targets" (ac_meet_daily_targets contributors)
  ++ contributorItem "Stay Active" (ac_stay_active contributors)
  ++ contributorItem "Move Every Hour" (ac_move_every_hour contributors)
  ++ contributorItem "Training Frequency" (ac_training_frequency contributors)
  ++ contributorItem "Training Volume" (ac_training_volume contributors)
  ++ contributorItem "Recovery Time" (ac_recovery_time contributors).

(** What one iteration of the loop of [formatActivityData] appends. *)
Definition activityBlock (activity : DailyActivityModel) : string :=
  "📅 **" ++ activity_day activity ++ "**" ++ LF
  ++ "• **Score**: " ++ scoreText (activity_score activity) ++ LF
  ++ "• **Steps**: " ++ toLocaleString (activity_steps activity) ++ LF
  ++ "• **Total Calories**: " ++ toString (activity_total_calories activity)
  ++ " kcal" ++ LF
  ++ "• **Active Calories**: " ++ toString (activity_active_calories activity)
  ++ " kcal" ++ LF
  ++ contributorsLine (activityContributorItems (activity_contributors activity))
  ++ LF.

Definition noActivityDataMessage : string :=
  "🏃 **No activity data found** for the specified period." ++ LF ++ LF
  ++ "This might happen if:" ++ LF
  ++ "• You haven't synced your Oura ring recently" ++ LF
  ++ "• You haven't worn your ring during the day" ++ LF
  ++ "• The data is still being processed".

Definition formatActivityData (activityData : list DailyActivityModel) : string :=
  if (List.length activityData =? 0)%nat then noActivityDataMessage
  else trim (fold_left (fun response activity => response ++ activityBlock activity)
               activityData ("🏃 **Activity Summary**" ++ LF ++ LF)).

(** [`${Math.round(seconds / 60)} minutes`] or ['N/A']. *)
Definition minutesText (seconds : optional Z) : string :=
  match seconds with
  | value n =>
      if n =? 0 then "N/A"
      else toString (Math_round (inject_Z n / 60)%Q) ++ " minutes"
  | _ => "N/A"
  end.

(** [stress.day_summary || 'N/A'] *)
Definition summaryText (s : optional DailyStressSummary) : string :=
  match s with
  | value l => DailyStressSummary_to_string l
  | _ => "N/A"
  end.

(** What one iteration of the loop of [formatStressData] appends. *)
Definition stressBlock (stress : DailyStressModel) : string :=
  "📅 **" ++ stress_day stress ++ "**" ++ LF
  ++ "• **Day Summary**: " ++ summaryText (day_summary stress) ++ LF
  ++ "• **High Stress Time**: " ++ minutesText (stress_high stress) ++ LF
  ++ "• **High Recovery Time**: " ++ minutesText (recovery_high stress) ++ LF ++ LF.

Definition noStressDataMessage : string :=
  "😰 **No stress data found** for the specified period." ++ LF ++ LF
  ++ "This might happen if:" ++ LF
  ++ "• You haven't synced your Oura ring recently" ++ LF
  ++ "• Stress tracking is not available on your ring model" ++ LF
  ++ "• The data is still being processed".

Definition formatStressData (stressData : list DailyStressModel) : string :=
  if (List.length stressData =? 0)%nat then noStressDataMessage
  else trim (fold_left (fun response stress => response ++ stressBlock stress)
               stressData ("😰 **Stress Summary**" ++ LF ++ LF)).

(** [PersonalInfoResponse] of [types.ts]. *)
Record PersonalInfoResponse : Type := {
  info_id : string;
  info_age : optional Z;
  info_weight : optional Q;
  info_height : optional Q;
  info_biological_sex : optional string;
  info_email : optional string
}.

(** The double quote of the hint lines. *)
Definition DQ : string := String (ascii_of_nat 34) EmptyString.

Definition noTokenFoundMessage : string :=
  "🔑 **Setup Required**: No Oura API token found." ++ LF ++ LF ++
  "**Next steps:**" ++ LF ++
  "1. Get your personal access token from [Oura Cloud](https://cloud.ouraring.com/personal-access-tokens)" ++ LF ++
  "2. Add it to your `.dev.vars` file as `OURA_API_TOKEN=your_token_here`" ++ LF ++
  "3. Restart the application" ++ LF ++ LF ++
  "*This is required to access your Oura Ring data.*".

Definition setupCheckFailedMessage : string :=
  "❌ **Setup Check Failed**: Unable to verify your Oura API connection." ++ LF ++ LF ++
  "This might be a temporary issue. Please try again in a few moments." ++ LF ++ LF ++
  "If the problem persists, check your API token and internet connection.".

Definition setupCompleteHeader : string :=
  "✅ **Oura API Setup Complete!**" ++ LF ++ LF.

(** [if (field) response += line]: the line, when the text field is truthy. *)
Definition textLine (label : string) (field : optional string) : list string :=
  match field with
  | value s => if truthy_string s then [label ++ s ++ LF] else []
  | _ => []
  end.

(** The same for a numeric field. *)
Definition numberLine (label : string) (field : optional Z) : list string :=
  match field with
  | value n => if n =? 0 then [] else [label ++ toString n ++ LF]
  | _ => []
  end.

(** The strings appended to [response] by [executeCheckOuraSetup] once
    the personal information has arrived. *)
Definition setupCompletePieces (personalInfo : PersonalInfoResponse) : list string :=
  [setupCompleteHeader;
   "👤 **Account ID**: " ++ info_id personalInfo ++ LF]
  ++ textLine "✉️ **Email**: " (info_email personalInfo)
  ++ numberLine "🎂 **Age**: " (info_age personalInfo)
  ++ textLine "⚕️ **Biological Sex**: " (info_biological_sex personalInfo)
  ++ [LF ++ "📊 **What you can do now:**" ++ LF;
      "• Ask me about your sleep data: " ++ DQ ++ "Show me my sleep from this week" ++ DQ ++ LF;
      "• Check your activity: " ++ DQ ++ "How active was I yesterday?" ++ DQ ++ LF;
      "• View stress levels: " ++ DQ ++ "What's my stress like this month?" ++ DQ ++ LF;
      "• Get readiness scores: " ++ DQ ++ "Am I ready for today?" ++ DQ ++ LF;
      "• See a full summary: " ++ DQ ++ "Give me my health summary for the past week" ++ DQ ++ LF].

(** [executeCheckOuraSetup()], given the environment's token and the
    network restricted to the personal-information endpoint. *)
Definition executeCheckOuraSetup (OURA_API_TOKEN : option string)
    (fetch : Fetch PersonalInfoResponse) : string :=
  try_catch
    (if negb (truthy OURA_API_TOKEN) then ret noTokenFoundMessage
     else
       personalInfo <- makeOuraRequest OURA_API_TOKEN fetch
                         "/usercollection/personal_info" [] ;;
       ret (String.concat "" (setupCompletePieces personalInfo)))
    (fun error =>
       match error with
       | OuraAPIUserError _ userMessage => userMessage
       | OtherError _ => setupCheckFailedMessage
       end).

(** ** The vocabulary of the specification *)

(** Sum of a list of integers. *)
Definition total (xs : list Z) : Z := fold_right Z.add 0 xs.

(** Arithmetic mean of a list of integers. *)
Definition mean (xs : list Z) : Q :=
  (inject_Z (total xs) / inject_Z (Z.of_nat (List.length xs)))%Q.

(** [r] is [q] rounded to the nearest integer, a tie going up. *)
Definition rounds_to (q : Q) (r : Z) : Prop :=
  (inject_Z r - (1 # 2) <= q /\ q < inject_Z r + (1 # 2))%Q.

(** The non-null entries of a column of optional values. *)
Definition non_null {A} (column : list (optional A)) : list A := values column.

(** A successful fetch of the given records. *)
Definition fetched {D} (records : list D) (token : optional string)
    : PromiseSettledResult (MultiDocumentResponse D) :=
  fulfilled {| data := records; next_token := token |}.

(** The records an outcome carries: the fetched list, and none when the
    fetch failed. *)
Definition recordsOf {D} (r : PromiseSettledResult (MultiDocumentResponse D))
    : list D :=
  match r with fulfilled v => data v | rejected _ => [] end.

(** The fetch failed or returned zero records. *)
Definition no_records {D} (r : PromiseSettledResult (MultiDocumentResponse D)) : Prop :=
  match r with fulfilled v => data v = [] | rejected _ => True end.

(** ** Sample records *)

Definition noSleepContributors : SleepContributors :=
  {| sc_deep_sleep := null; sc_efficiency := null; sc_latency := null;
     sc_rem_sleep := null; sc_restfulness := null; sc_timing := null;
     sc_total_sleep := null |}.

Definition noActivityContributors : ActivityContributors :=
  {| ac_meet_daily_targets := null; ac_move_every_hour := null;
     ac_recovery_time := null; ac_stay_active := null;
     ac_training_frequency := null; ac_training_volume := null |}.

Definition noReadinessContributors : ReadinessContributors :=
  {| rc_activity_balance := null; rc_body_temperature := null;
     rc_hrv_balance := null; rc_previous_day_activity := null;
     rc_previous_night := null; rc_recovery_index := null;
     rc_resting_heart_rate := null; rc_sleep_balance := null |}.

(** A sleep document with the given score. *)
Definition sleepDoc (score : optional Z) : DailySleepModel :=
  {| sleep_id := "s"; sleep_contributors := noSleepContributors;
     sleep_day := "2024-05-01"; sleep_score := score;
     sleep_timestamp := "2024-05-01T00:00:00+00:00" |}.

(** An activity document with the given score and step count. *)
Definition activityDoc (score : optional Z) (steps : Z) : DailyActivityModel :=
  {| activity_id := "a"; activity_score := score; activity_active_calories := 0;
     activity_contributors := noActivityContributors; activity_steps := steps;
     activity_total_calories := 0; activity_day := "2024-05-01";
     activity_timestamp := "2024-05-01T00:00:00+00:00" |}.

(** A stress document with the given high-stress seconds and day label. *)
Definition stressDoc (high : optional Z) (label : optional DailyStressSummary)
    : DailyStressModel :=
  {| stress_id := "t"; stress_day := "2024-05-01"; stress_high := high;
     recovery_high := null; day_summary := label |}.

(** A readiness document with the given score. *)
Definition readinessDoc (score : optional Z) : DailyReadinessModel :=
  {| readiness_id := "r"; readiness_contributors := noReadinessContributors;
     readiness_day := "2024-05-01"; readiness_score := score;
     readiness_temperature_deviation := null;
     readiness_temperature_trend_deviation := null;
     readiness_timestamp := "2024-05-01T00:00:00+00:00" |}.

(** A string that opens with the byte [c]. *)
Definition starts_with (c : ascii) (s : string) : Prop :=
  exists rest, s = String c rest.

(** The first byte of the emoji that open the header, the period line and
    the four category lines. *)
Definition emoji_lead : ascii := ascii_of_nat 240.

(** One of the two explicit bounds is not supplied, or is the empty string. *)
Definition bound_missing (bound : option string) : Prop :=
  bound = None \/ bound = Some "".

(** The same call with the explicit bounds left out. *)
Definition withoutBounds (a : Args) : Args :=
  {| period := period a; arg_start_date := None; arg_end_date := None |}.

(** The token is not configured: the variable is unset or empty. *)
Definition token_missing (w : World) : Prop :=
  OURA_API_TOKEN w = None \/ OURA_API_TOKEN w = Some "".

(** What every request rejects with while the token is missing. *)
Definition tokenNotConfigured : Exn :=
  OuraAPIUserError "Oura API token not configured" setupRequiredMessage.



(** The label column of a stress list as the source builds it:
    [stressData.map(d => d.day_summary).filter(s => s !== null)]. *)
Definition summariesOf (stressData : list DailyStressModel)
    : list (optional DailyStressSummary) :=
  filter not_null (map day_summary stressData).

(** A network on which every request fails before a response arrives. *)
Definition offline {T} : Fetch T := fun _ => throw (OtherError "fetch failed").

(** A host with no token configured, on 15 May 2024. *)
Definition unconfiguredWorld : World :=
  {| OURA_API_TOKEN := None;
     today := mkDate 2024 5 15;
     fetch_daily_sleep := offline;
     fetch_daily_activity := offline;
     fetch_daily_stress := offline;
     fetch_daily_readiness := offline |}.

(** A request for the week that names a start but no end. *)
Definition halfBoundedArgs : Args :=
  {| period := "week"; arg_start_date := Some "2024-01-01"; arg_end_date := None |}.

(** A request with both bounds. *)
Definition boundedArgs : Args :=
  {| period := "week"; arg_start_date := Some "2024-01-01";
     arg_end_date := Some "2024-01-31" |}.

(** Three nights, the last one without a score. *)
Definition threeNights : list DailySleepModel :=
  [sleepDoc (value 80); sleepDoc (value 90); sleepDoc null].

(** Two days of steps without any activity score. *)
Definition twoWalks : list DailyActivityModel :=
  [activityDoc undefined 1000; activityDoc undefined 3000].

(** Two days with 60 and 120 seconds of high stress. *)
Definition twoStressDays : list DailyStressModel :=
  [stressDoc (value 60) (value normal); stressDoc (value 120) (value stressful)].

(** A failed fetch. *)
Definition failedFetch {T} : PromiseSettledResult T :=
  rejected (OtherError "fetch failed").

(** An explicit range. *)
Definition january : DateRange :=
  {| start_date := "2024-01-01"; end_date := "2024-01-31" |}.

(** 2 March of a leap year. *)
Definition secondOfMarch : Date := mkDate 2024 3 2.

(** ** Vocabulary for the request helper *)

(** The request [makeOuraRequest] hands to [fetch] once a token is read. *)
Definition requestFor (API_TOKEN endpoint : string) (params : list (string * string))
    : Request :=
  {| url := "https://api.ouraring.com/v2" ++ endpoint;
     searchParams := params;
     headers := [("Authorization", "Bearer " ++ API_TOKEN);
                 ("Content-Type", "application/json")] |}.

(** The user-facing text for a status other than 401, 403 and 429. *)
Definition apiErrorMessage (status : Z) : string :=
  "❌ **API Error**: Unable to fetch your Oura data (" ++ toString status ++ ")."
  ++ LF ++ LF ++
  "This might be a temporary issue. Please try again in a few moments.".

(** A network that answers every request with the given status line and
    body readers. *)
Definition respond {T} (status : Z) (statusText : string) (text : M string)
    (json : M T) : Fetch T :=
  fun _ => ret {| response_status := status; response_statusText := statusText;
                  response_text := text; response_json := json |}.

(** A settled outcome with its rejection reason blanked. *)
Definition forgetReason {T} (r : PromiseSettledResult T) : PromiseSettledResult T :=
  match r with
  | fulfilled v => fulfilled v
  | rejected _ => rejected (OtherError "")
  end.

(** The user-facing text [makeOuraRequest] attaches to a status outside
    200-299. *)
Definition statusUserMessage (status : Z) : string :=
  if status =? 401 then authenticationFailedMessage
  else if status =? 403 then accessDeniedMessage
  else if status =? 429 then rateLimitMessage
  else apiErrorMessage status.

(** The request of a single-metric function for the given endpoint. *)
Definition metricRequest (w : World) (a : Args) (tok endpoint : string) : Request :=
  requestFor tok endpoint (queryParams (determineDateRange w a)).

(** A byte of visible ASCII, from [!] to [~]. *)
Definition printable (c : ascii) : bool :=
  ((33 <=? code c) && (code c <=? 126))%N.

(** A string whose last byte is visible ASCII. *)
Definition ends_printable (s : string) : Prop :=
  exists body c, s = body ++ String c "" /\ printable c = true.

(** A string that opens with the text [p]. *)
Definition has_prefix (p s : string) : Prop := exists rest, s = p ++ rest.

(** The transport throws nothing of the source's own error class: neither
    [fetch] nor [json()] rejects with an [OuraAPIUserError]. *)
Definition transport_errors_only {T} (fetch : Fetch T) : Prop :=
  forall request,
    match fetch request with
    | inl (OuraAPIUserError _ _) => False
    | inl (OtherError _) => True
    | inr response =>
        match response_json response with
        | inl (OuraAPIUserError _ _) => False
        | _ => True
        end
    end.

(** A configured host whose four endpoints behave as given. *)
Definition configuredWorld
    (sleep : Fetch (MultiDocumentResponse DailySleepModel))
    (activity : Fetch (MultiDocumentResponse DailyActivityModel))
    (stress : Fetch (MultiDocumentResponse DailyStressModel))
    (readiness : Fetch (MultiDocumentResponse DailyReadinessModel)) : World :=
  {| OURA_API_TOKEN := Some "secret";
     today := mkDate 2024 5 15;
     fetch_daily_sleep := sleep;
     fetch_daily_activity := activity;
     fetch_daily_stress := stress;
     fetch_daily_readiness := readiness |}.

(** Every endpoint answers 429 with an empty body. *)
Definition throttledWorld : World :=
  configuredWorld
    (respond 429 "Too Many Requests" (ret "") (throw (OtherError "no body")))
    (respond 429 "Too Many Requests" (ret "") (throw (OtherError "no body")))
    (respond 429 "Too Many Requests" (ret "") (throw (OtherError "no body")))
    (respond 429 "Too Many Requests" (ret "") (throw (OtherError "no body"))).

(** The token is configured but the network is down. *)
Definition offlineWorld : World := configuredWorld offline offline offline offline.

(** One page of documents. *)
Definition page {D} (records : list D) : MultiDocumentResponse D :=
  {| data := records; next_token := null |}.

(** Every endpoint answers 200; the sleep endpoint returns three nights. *)
Definition healthyWorld : World :=
  configuredWorld
    (respond 200 "OK" (ret "") (ret (page threeNights)))
    (respond 200 "OK" (ret "") (ret (page twoWalks)))
    (respond 200 "OK" (ret "") (ret (page twoStressDays)))
    (respond 200 "OK" (ret "") (ret (page [readinessDoc (value 70)]))).

(** An account with an e-mail address and no age. *)
Definition someAccount : PersonalInfoResponse :=
  {| info_id := "abc"; info_age := null; info_weight := null; info_height := null;
     info_biological_sex := null; info_email := value "a@b.c" |}.

(** ** Rounding and averaging *)

Lemma Math_round_rounds_to (q : Q) : rounds_to q (Math_round q).
Proof.
  unfold rounds_to, Math_round.
  pose proof (Qfloor_le (q + (1 # 2))) as Hle.
  pose proof (Qlt_floor (q + (1 # 2))) as Hlt.
  rewrite inject_Z_plus in Hlt. change (inject_Z 1) with 1%Q in Hlt.
  split; lra.
Qed.

Lemma rounds_to_unique (q : Q) (r1 r2 : Z) :
  rounds_to q r1 -> rounds_to q r2 -> r1 = r2.
Proof.
  intros [H1 H1'] [H2 H2'].
  assert (inject_Z r1 < inject_Z r2 + 1)%Q as A by lra.
  assert (inject_Z r2 < inject_Z r1 + 1)%Q as B by lra.
  change 1%Q with (inject_Z 1) in A, B.
  rewrite <- inject_Z_plus in A, B.
  rewrite <- Zlt_Qlt in A, B. lia.
Qed.

Lemma fold_left_add_shift {D} (f : D -> Z) (xs : list D) (acc : Z) :
  fold_left (fun sum d => sum + f d) xs acc
  = acc + fold_left (fun sum d => sum + f d) xs 0.
Proof.
  revert acc. induction xs as [|x xs IH]; intros acc; simpl.
  - lia.
  - rewrite IH. rewrite (IH (f x)). lia.
Qed.

Lemma reduce_sum_cons {D} (f : D -> Z) (x : D) (xs : list D) :
  reduce_sum f (x :: xs) = f x + reduce_sum f xs.
Proof. unfold reduce_sum. simpl. apply fold_left_add_shift. Qed.

Lemma reduce_sum_total {D} (f : D -> Z) (xs : list D) :
  reduce_sum f xs = total (map f xs).
Proof.
  induction xs as [|x xs IH].
  - reflexivity.
  - rewrite reduce_sum_cons, IH. reflexivity.
Qed.

Lemma or_zero_value (n : Z) : or_zero (value n) = n.
Proof. simpl. destruct (Z.eqb_spec n 0); congruence. Qed.

(** Summing [field || 0] over the records that pass the source's
    presence filter is summing the non-null entries of the column. *)
Lemma valid_sum {D} (field : D -> optional Z) (xs : list D) :
  reduce_sum (fun d => or_zero (field d)) (filter (fun d => present (field d)) xs)
  = total (non_null (map field xs)).
Proof.
  induction xs as [|x xs IH].
  - reflexivity.
  - simpl. destruct (field x) as [| |n] eqn:E; simpl; try exact IH.
    rewrite reduce_sum_cons, IH, E, or_zero_value. reflexivity.
Qed.

Lemma valid_length {D} (field : D -> optional Z) (xs : list D) :
  List.length (filter (fun d => present (field d)) xs)
  = List.length (non_null (map field xs)).
Proof.
  induction xs as [|x xs IH].
  - reflexivity.
  - simpl. destruct (field x); simpl; congruence.
Qed.

Lemma valid_average {D} (field : D -> optional Z) (xs : list D) :
  divide_by_length
    (reduce_sum (fun d => or_zero (field d)) (filter (fun d => present (field d)) xs))
    (filter (fun d => present (field d)) xs)
  = mean (non_null (map field xs)).
Proof. unfold divide_by_length, mean. now rewrite valid_sum, valid_length. Qed.

Lemma ltb_length_nonempty {A} (xs : list A) :
  xs <> [] -> (0 <? List.length xs)%nat = true.
Proof. destruct xs; [congruence | reflexivity]. Qed.

Lemma ltb_length_empty {A} (xs : list A) :
  xs = [] -> (0 <? List.length xs)%nat = false.
Proof. intros ->. reflexivity. Qed.

Lemma length_nil_inv {A} (xs : list A) : List.length xs = 0%nat -> xs = [].
Proof. destruct xs; [reflexivity | discriminate]. Qed.

Lemma valid_nonempty {D} (field : D -> optional Z) (xs : list D) :
  non_null (map field xs) <> [] ->
  (0 <? List.length (filter (fun d => present (field d)) xs))%nat = true.
Proof.
  intros H. rewrite valid_length. now apply ltb_length_nonempty.
Qed.

Lemma valid_empty {D} (field : D -> optional Z) (xs : list D) :
  non_null (map field xs) = [] ->
  (0 <? List.length (filter (fun d => present (field d)) xs))%nat = false.
Proof.
  intros H. rewrite valid_length, H. reflexivity.
Qed.

(** ** The score lines (sleep, readiness) *)

Lemma sleepLine_average (records : list DailySleepModel) (token : optional string) :
  records <> [] ->
  non_null (map sleep_score records) <> [] ->
  sleepLine (fetched records token)
  = "😴 **Sleep**: Average score "
    ++ toString (Math_round (mean (non_null (map sleep_score records))))
    ++ "/100 (" ++ toString (Z.of_nat (List.length records)) ++ " days)" ++ LF.
Proof.
  intros Hrec Hsc. unfold sleepLine, fetched. cbn [data].
  rewrite (ltb_length_nonempty _ Hrec).
  rewrite (valid_nonempty sleep_score _ Hsc).
  cbv zeta. rewrite (valid_average sleep_score). reflexivity.
Qed.

Lemma readinessLine_average (records : list DailyReadinessModel) (token : optional string) :
  records <> [] ->
  non_null (map readiness_score records) <> [] ->
  readinessLine (fetched records token)
  = "⚡ **Readiness**: Average score "
    ++ toString (Math_round (mean (non_null (map readiness_score records))))
    ++ "/100 (" ++ toString (Z.of_nat (List.length records)) ++ " days)" ++ LF.
Proof.
  intros Hrec Hsc. unfold readinessLine, fetched. cbn [data].
  rewrite (ltb_length_nonempty _ Hrec).
  rewrite (valid_nonempty readiness_score _ Hsc).
  cbv zeta. rewrite (valid_average readiness_score). reflexivity.
Qed.

(** C2. For a fetched, non-empty sleep list the sleep line shows the mean
    of the non-null scores rounded to the nearest integer and the number
    of all fetched records; [80, 90, null] gives 85 and 3.  With records
    but no score it is the "no scores calculated" line, and after a
    failed or empty fetch the "No data available" line.  The readiness
    line follows the same rule. *)
Theorem C2_sleep_and_readiness_lines :
  (forall records token,
      records <> [] -> non_null (map sleep_score records) <> [] ->
      exists avg,
        rounds_to (mean (non_null (map sleep_score records))) avg /\
        sleepLine (fetched records token)
        = "😴 **Sleep**: Average score " ++ toString avg ++ "/100 ("
          ++ toString (Z.of_nat (List.length records)) ++ " days)" ++ LF)
  /\ sleepLine (fetched [sleepDoc (value 80); sleepDoc (value 90); sleepDoc null] null)
     = "😴 **Sleep**: Average score 85/100 (3 days)" ++ LF
  /\ (forall records token,
      records <> [] -> non_null (map sleep_score records) = [] ->
      sleepLine (fetched records token)
      = "😴 **Sleep**: Data available but no scores calculated" ++ LF)
  /\ (forall r, no_records r -> sleepLine r = "😴 **Sleep**: No data available" ++ LF)
  /\ (forall records token,
      records <> [] -> non_null (map readiness_score records) <> [] ->
      exists avg,
        rounds_to (mean (non_null (map readiness_score records))) avg /\
        readinessLine (fetched records token)
        = "⚡ **Readiness**: Average score " ++ toString avg ++ "/100 ("
          ++ toString (Z.of_nat (List.length records)) ++ " days)" ++ LF)
  /\ (forall records token,
      records <> [] -> non_null (map readiness_score records) = [] ->
      readinessLine (fetched records token)
      = "⚡ **Readiness**: Data available but no scores calculated" ++ LF)
  /\ (forall r, no_records r ->
      readinessLine r = "⚡ **Readiness**: No data available" ++ LF).
Proof.
  repeat split.
  - intros records token Hrec Hsc. eexists. split.
    + apply Math_round_rounds_to.
    + now apply sleepLine_average.
  - intros records token Hrec Hsc. unfold sleepLine, fetched. cbn [data].
    rewrite (ltb_length_nonempty _ Hrec), (valid_empty sleep_score _ Hsc).
    reflexivity.
  - intros [v|e] H; simpl in *; [rewrite H|]; reflexivity.
  - intros records token Hrec Hsc. eexists. split.
    + apply Math_round_rounds_to.
    + now apply readinessLine_average.
  - intros records token Hrec Hsc. unfold readinessLine, fetched. cbn [data].
    rewrite (ltb_length_nonempty _ Hrec), (valid_empty readiness_score _ Hsc).
    reflexivity.
  - intros [v|e] H; simpl in *; [rewrite H|]; reflexivity.
Qed.

(** ** The activity line *)

Lemma steps_average (records : list DailyActivityModel) :
  divide_by_length (reduce_sum activity_steps records) records
  = mean (map activity_steps records).
Proof.
  unfold divide_by_length, mean. now rewrite reduce_sum_total, length_map.
Qed.

(** C5. For a fetched, non-empty activity list the average daily steps
    shown are the sum of the steps of all records divided by the number
    of records, rounded to the nearest integer, whatever scores are
    present; with no score at all the line is the "(no scores available)"
    variant carrying those steps, and steps 1000 and 3000 without scores
    show 2,000. *)
Theorem C5_activity_average_steps :
  (forall records token,
      records <> [] ->
      exists avgSteps,
        rounds_to (mean (map activity_steps records)) avgSteps /\
        (non_null (map activity_score records) = [] ->
         activityLine (fetched records token)
         = "🏃 **Activity**: " ++ toLocaleString avgSteps
           ++ " avg steps/day (no scores available)" ++ LF) /\
        (non_null (map activity_score records) <> [] ->
         exists avgScore,
           rounds_to (mean (non_null (map activity_score records))) avgScore /\
           activityLine (fetched records token)
           = "🏃 **Activity**: Average score " ++ toString avgScore ++ "/100, "
             ++ toLocaleString avgSteps ++ " avg steps/day" ++ LF))
  /\ activityLine
       (fetched [activityDoc undefined 1000; activityDoc undefined 3000] null)
     = "🏃 **Activity**: 2,000 avg steps/day (no scores available)" ++ LF.
Proof.
  split; [|reflexivity].
  intros records token Hrec.
  exists (Math_round (mean (map activity_steps records))).
  split; [apply Math_round_rounds_to|]. split.
  - intros Hsc. unfold activityLine, fetched. cbn [data].
    rewrite (ltb_length_nonempty _ Hrec), (valid_empty activity_score _ Hsc).
    cbv zeta. rewrite steps_average. reflexivity.
  - intros Hsc. eexists. split; [apply Math_round_rounds_to|].
    unfold activityLine, fetched. cbn [data].
    rewrite (ltb_length_nonempty _ Hrec), (valid_nonempty activity_score _ Hsc).
    cbv zeta. rewrite steps_average, (valid_average activity_score). reflexivity.
Qed.

(** ** The stress line *)

(** C6. For a fetched, non-empty stress list, the records with a non-null
    high-stress duration are kept; if any remain the minutes shown are
    the mean of their seconds divided by 60, rounded to the nearest
    integer; if none remain the line is the "no stress times calculated"
    variant; after a failed or empty fetch it is "No data available". *)
Theorem C6_stress_minutes :
  (forall records token,
      records <> [] -> non_null (map stress_high records) <> [] ->
      exists minutes,
        rounds_to (mean (non_null (map stress_high records)) / 60)%Q minutes /\
        stressLine (fetched records token)
        = "😰 **Stress**: " ++ toString minutes ++ " avg minutes/day, mostly "
          ++ summary_or_NA (mostCommonSummary records) ++ LF)
  /\ (forall records token,
      records <> [] -> non_null (map stress_high records) = [] ->
      stressLine (fetched records token)
      = "😰 **Stress**: Data available but no stress times calculated" ++ LF)
  /\ (forall r, no_records r -> stressLine r = "😰 **Stress**: No data available" ++ LF).
Proof.
  split; [|split].
  - intros records token Hrec Hhigh. eexists. split; [apply Math_round_rounds_to|].
    unfold stressLine, fetched. cbn [data].
    rewrite (ltb_length_nonempty _ Hrec). cbv zeta.
    rewrite (valid_nonempty stress_high _ Hhigh), (valid_average stress_high).
    reflexivity.
  - intros records token Hrec Hhigh. unfold stressLine, fetched. cbn [data].
    rewrite (ltb_length_nonempty _ Hrec). cbv zeta.
    rewrite (valid_empty stress_high _ Hhigh). reflexivity.
  - intros [v|e] H; simpl in *; [rewrite H|]; reflexivity.
Qed.

(** ** The insights *)

Lemma totalDataPoints_sum sleepResponse activityResponse readinessResponse :
  totalDataPoints sleepResponse activityResponse readinessResponse
  = dataLength sleepResponse + dataLength activityResponse
    + dataLength readinessResponse.
Proof. unfold totalDataPoints. simpl. lia. Qed.

Lemma dataLength_nonneg {D} (r : PromiseSettledResult (MultiDocumentResponse D)) :
  0 <= dataLength r.
Proof. destruct r; simpl; lia. Qed.

Lemma last_app_singleton {A} (xs : list A) (x d : A) : last (xs ++ [x]) d = x.
Proof. apply last_last. Qed.

Lemma summaryPieces_last dateRange sleepResponse activityResponse stressResponse
    readinessResponse :
  last (summaryPieces dateRange sleepResponse activityResponse stressResponse
          readinessResponse) ""
  = coverageInsight
      (dataLength sleepResponse + dataLength activityResponse
       + dataLength readinessResponse).
Proof.
  unfold summaryPieces. rewrite app_assoc, last_app_singleton.
  now rewrite totalDataPoints_sum.
Qed.

Lemma dataLength_records {D} (r : PromiseSettledResult (MultiDocumentResponse D)) :
  dataLength r = Z.of_nat (List.length (recordsOf r)).
Proof. destruct r; reflexivity. Qed.

Lemma summaryPieces_last_records dateRange sleepResponse activityResponse
    stressResponse readinessResponse :
  last (summaryPieces dateRange sleepResponse activityResponse stressResponse
          readinessResponse) ""
  = coverageInsight
      (Z.of_nat (List.length (recordsOf sleepResponse)
                 + List.length (recordsOf activityResponse)
                 + List.length (recordsOf readinessResponse))).
Proof.
  rewrite summaryPieces_last, !dataLength_records. f_equal. lia.
Qed.

(** C3. The coverage insight, the last piece of the report, is decided by
    the number of records fetched for sleep, activity and readiness
    together, a failed fetch bringing none: no record gives "No data
    found", one or two give "Limited data available", three or more give
    "Good data coverage".  The stress outcome has no part in it, however
    many records it carries. *)
Theorem C3_coverage_insight_boundary :
  forall dateRange sleepResponse activityResponse stressResponse readinessResponse,
    let total := (List.length (recordsOf sleepResponse)
                  + List.length (recordsOf activityResponse)
                  + List.length (recordsOf readinessResponse))%nat in
    let insight := last (summaryPieces dateRange sleepResponse activityResponse
                           stressResponse readinessResponse) "" in
    (total = 0%nat -> insight = noDataFoundInsight)
    /\ (total = 1%nat \/ total = 2%nat -> insight = limitedDataInsight)
    /\ ((3 <= total)%nat -> insight = goodCoverageInsight)
    /\ (forall otherStress,
           last (summaryPieces dateRange sleepResponse activityResponse
                   otherStress readinessResponse) "" = insight).
Proof.
  intros dateRange sleepResponse activityResponse stressResponse readinessResponse.
  cbv zeta. rewrite summaryPieces_last_records.
  assert (forall otherStress,
             last (summaryPieces dateRange sleepResponse activityResponse
                     otherStress readinessResponse) ""
             = coverageInsight
                 (Z.of_nat (List.length (recordsOf sleepResponse)
                            + List.length (recordsOf activityResponse)
                            + List.length (recordsOf readinessResponse)))) as Hstress
    by (intros otherStress; apply summaryPieces_last_records).
  revert Hstress.
  generalize (List.length (recordsOf sleepResponse)
              + List.length (recordsOf activityResponse)
              + List.length (recordsOf readinessResponse))%nat.
  intros total Hstress. unfold coverageInsight in *. repeat split.
  - intros ->. reflexivity.
  - intros [-> | ->]; reflexivity.
  - intros Hge.
    destruct (Z.eqb_spec (Z.of_nat total) 0); [lia|].
    destruct (Z.ltb_spec (Z.of_nat total) 3); [lia | reflexivity].
  - exact Hstress.
Qed.

Lemma sleepLine_head r : starts_with emoji_lead (sleepLine r).
Proof.
  unfold sleepLine.
  repeat match goal with
         | |- context [match ?x with _ => _ end] => destruct x
         end; eexists; reflexivity.
Qed.

Lemma activityLine_head r : starts_with emoji_lead (activityLine r).
Proof.
  unfold activityLine.
  repeat match goal with
         | |- context [match ?x with _ => _ end] => destruct x
         end; eexists; reflexivity.
Qed.

Lemma stressLine_head r : starts_with emoji_lead (stressLine r).
Proof.
  unfold stressLine.
  repeat match goal with
         | |- context [match ?x with _ => _ end] => destruct x
         end; eexists; reflexivity.
Qed.

Lemma starts_with_neq (c1 c2 : ascii) (s1 s2 : string) :
  c1 <> c2 -> starts_with c1 s1 -> starts_with c2 s2 -> s1 <> s2.
Proof.
  intros Hc [r1 ->] [r2 ->] H. injection H as H1 _. contradiction.
Qed.

Lemma someDataTypesInsight_head : starts_with (ascii_of_nat 226) someDataTypesInsight.
Proof. eexists. reflexivity. Qed.

Lemma lead_differs : ascii_of_nat 226 <> emoji_lead.
Proof. discriminate. Qed.

Lemma not_emoji_led (s : string) :
  starts_with emoji_lead s -> someDataTypesInsight <> s.
Proof.
  intros H. exact (starts_with_neq _ _ _ _ lead_differs someDataTypesInsight_head H).
Qed.

Lemma coverageInsight_not_failed (n : Z) : someDataTypesInsight <> coverageInsight n.
Proof.
  unfold coverageInsight.
  destruct (n =? 0); [discriminate|]. destruct (n <? 3); discriminate.
Qed.

Lemma failedRequestsPieces_some (statuses : list Status) :
  In someDataTypesInsight (failedRequestsPieces statuses)
  <-> In status_rejected statuses.
Proof.
  unfold failedRequestsPieces.
  assert (forall st, In st (filter (fun r => Status_eqb r status_rejected) statuses)
                     <-> st = status_rejected /\ In st statuses) as Hf.
  { intros st. rewrite filter_In. destruct st; simpl; intuition congruence. }
  destruct (filter (fun r => Status_eqb r status_rejected) statuses) as [|x xs] eqn:E.
  - simpl. split; [tauto|]. intros Hin.
    apply (proj2 (Hf status_rejected)); auto.
  - simpl. split; [|auto]. intros _.
    destruct (proj1 (Hf x) (or_introl eq_refl)) as [-> Hin]. exact Hin.
Qed.

(** C7. The insight "Some data types may not be available ..." is among
    the pieces appended to the report exactly when at least one of the
    four fetches settled as rejected. *)
Theorem C7_failed_fetch_insight_iff :
  forall dateRange sleepResponse activityResponse stressResponse readinessResponse,
    In someDataTypesInsight
       (summaryPieces dateRange sleepResponse activityResponse stressResponse
          readinessResponse)
    <-> (status sleepResponse = status_rejected
         \/ status activityResponse = status_rejected
         \/ status stressResponse = status_rejected
         \/ status readinessResponse = status_rejected).
Proof.
  intros dateRange sleepResponse activityResponse stressResponse readinessResponse.
  unfold summaryPieces. rewrite !in_app_iff, failedRequestsPieces_some.
  split.
  - intros [Hfixed | [Hfailed | Hcov]].
    + exfalso. simpl in Hfixed.
      destruct Hfixed as [H | [H | [H | [H | [H | [H | [H | []]]]]]]];
        symmetry in H; revert H.
      * discriminate.
      * apply not_emoji_led. eexists. reflexivity.
      * apply not_emoji_led, sleepLine_head.
      * apply not_emoji_led, activityLine_head.
      * apply not_emoji_led, stressLine_head.
      * unfold readinessLine.
        repeat match goal with
               | |- context [match ?x with _ => _ end] => destruct x
               end; discriminate.
      * discriminate.
    + simpl in Hfailed. intuition auto.
    + exfalso. simpl in Hcov. destruct Hcov as [H | []].
      symmetry in H. revert H. apply coverageInsight_not_failed.
  - intros H. right. left. simpl. intuition auto.
Qed.

(** ** The report as a whole *)


Lemma executeGetOuraHealthSummary_report (w : World) (a : Args) :
  executeGetOuraHealthSummary w a
  = aggregate (determineDateRange w a)
      (settledSleep w (queryParams (determineDateRange w a)))
      (settledActivity w (queryParams (determineDateRange w a)))
      (settledStress w (queryParams (determineDateRange w a)))
      (settledReadiness w (queryParams (determineDateRange w a))).
Proof. reflexivity. Qed.

Lemma all_rejected_pieces dateRange e1 e2 e3 e4 :
  summaryPieces dateRange (rejected e1) (rejected e2) (rejected e3) (rejected e4)
  = ["📊 **Comprehensive Health Summary**" ++ LF ++ LF;
     "📅 **Period**: " ++ start_date dateRange ++ " to " ++ end_date dateRange
     ++ LF ++ LF;
     "😴 **Sleep**: No data available" ++ LF;
     "🏃 **Activity**: No data available" ++ LF;
     "😰 **Stress**: No data available" ++ LF;
     "⚡ **Readiness**: No data available" ++ LF;
     LF ++ "💡 **Key Insights**:" ++ LF;
     someDataTypesInsight;
     noDataFoundInsight].
Proof. reflexivity. Qed.


(** ** A missing token *)

Lemma makeOuraRequest_token_missing {T} (token : option string) (fetch : Fetch T)
    (endpoint : string) (params : list (string * string)) :
  token = None \/ token = Some "" ->
  makeOuraRequest token fetch endpoint params = throw tokenNotConfigured.
Proof. intros [-> | ->]; reflexivity. Qed.

Lemma aggregate_head dateRange sleepResponse activityResponse stressResponse
    readinessResponse :
  exists rest,
    aggregate dateRange sleepResponse activityResponse stressResponse
      readinessResponse
    = String (ascii_of_nat 240) (String (ascii_of_nat 159)
        (String (ascii_of_nat 147) rest)).
Proof.
  unfold aggregate, summaryPieces. cbn [app String.concat].
  eexists. reflexivity.
Qed.

Lemma setupRequiredMessage_head :
  exists rest,
    setupRequiredMessage
    = String (ascii_of_nat 240) (String (ascii_of_nat 159)
        (String (ascii_of_nat 148) rest)).
Proof. eexists. reflexivity. Qed.

(** C10. With no token configured the summary is not the setup-required
    message: each of the four requests rejects inside the settle-all
    join, and the function returns the degraded report, whose pieces
    include the four "No data available" lines, the "Some data types may
    not be available" insight and the "No data found" insight. *)
Theorem C10_missing_token_degrades :
  forall w a,
    token_missing w ->
    let dateRange := determineDateRange w a in
    let pieces := summaryPieces dateRange (rejected tokenNotConfigured)
                    (rejected tokenNotConfigured) (rejected tokenNotConfigured)
                    (rejected tokenNotConfigured) in
    settledSleep w (queryParams dateRange) = rejected tokenNotConfigured
    /\ settledActivity w (queryParams dateRange) = rejected tokenNotConfigured
    /\ settledStress w (queryParams dateRange) = rejected tokenNotConfigured
    /\ settledReadiness w (queryParams dateRange) = rejected tokenNotConfigured
    /\ executeGetOuraHealthSummary w a = String.concat "" pieces
    /\ executeGetOuraHealthSummary w a <> setupRequiredMessage
    /\ In ("😴 **Sleep**: No data available" ++ LF) pieces
    /\ In ("🏃 **Activity**: No data available" ++ LF) pieces
    /\ In ("😰 **Stress**: No data available" ++ LF) pieces
    /\ In ("⚡ **Readiness**: No data available" ++ LF) pieces
    /\ In someDataTypesInsight pieces
    /\ In noDataFoundInsight pieces.
Proof.
  intros w a Htoken dateRange pieces.
  assert (settledSleep w (queryParams dateRange) = rejected tokenNotConfigured) as Hs
    by (unfold settledSleep; now rewrite makeOuraRequest_token_missing).
  assert (settledActivity w (queryParams dateRange) = rejected tokenNotConfigured) as Ha
    by (unfold settledActivity; now rewrite makeOuraRequest_token_missing).
  assert (settledStress w (queryParams dateRange) = rejected tokenNotConfigured) as Ht
    by (unfold settledStress; now rewrite makeOuraRequest_token_missing).
  assert (settledReadiness w (queryParams dateRange) = rejected tokenNotConfigured) as Hr
    by (unfold settledReadiness; now rewrite makeOuraRequest_token_missing).
  assert (executeGetOuraHealthSummary w a = String.concat "" pieces) as Hreport.
  { rewrite executeGetOuraHealthSummary_report. fold dateRange.
    rewrite Hs, Ha, Ht, Hr. reflexivity. }
  repeat (split; [assumption|]).
  split.
  - rewrite executeGetOuraHealthSummary_report.
    destruct (aggregate_head (determineDateRange w a)
                (settledSleep w (queryParams (determineDateRange w a)))
                (settledActivity w (queryParams (determineDateRange w a)))
                (settledStress w (queryParams (determineDateRange w a)))
                (settledReadiness w (queryParams (determineDateRange w a))))
      as [rest ->].
    destruct setupRequiredMessage_head as [rest' ->]. discriminate.
  - subst pieces. rewrite all_rejected_pieces. simpl. tauto.
Qed.

(** ** Explicit bounds against the period token *)

Lemma truthy_false_iff (bound : option string) :
  truthy bound = false <-> bound_missing bound.
Proof.
  unfold bound_missing. destruct bound as [[|c s]|]; simpl; split;
    intros H; try reflexivity; try discriminate; auto;
    destruct H as [H|H]; discriminate.
Qed.

Lemma determineDateRange_period (w : World) (a : Args) :
  bound_missing (arg_start_date a) \/ bound_missing (arg_end_date a) ->
  determineDateRange w a = getDateRange (today w) (period a).
Proof.
  intros H. unfold determineDateRange.
  destruct H as [H|H]; apply truthy_false_iff in H; rewrite H.
  - reflexivity.
  - rewrite andb_false_r. reflexivity.
Qed.

Lemma determineDateRange_withoutBounds (w : World) (a : Args) :
  determineDateRange w (withoutBounds a) = getDateRange (today w) (period a).
Proof. reflexivity. Qed.

Lemma determineDateRange_explicit (w : World) (a : Args) (s e : string) :
  arg_start_date a = Some s -> arg_end_date a = Some e -> s <> "" -> e <> "" ->
  determineDateRange w a = {| start_date := s; end_date := e |}.
Proof.
  intros Hs He Hs' He'. unfold determineDateRange. rewrite Hs, He.
  destruct s; [congruence|]. destruct e; [congruence|]. reflexivity.
Qed.

(** C9. In the summary and in the four single-metric functions alike, if
    one of the two explicit bounds is not supplied or is the empty
    string, both bounds are ignored: the range is the one of the period
    token and the call returns what it returns with no bounds at all.
    The explicit bounds are used only when both are supplied and
    non-empty. *)
Theorem C9_bounds_need_both :
  forall formatSleepData formatActivityData formatStressData formatReadinessData
         w a,
    (bound_missing (arg_start_date a) \/ bound_missing (arg_end_date a) ->
     determineDateRange w a = getDateRange (today w) (period a)
     /\ executeGetOuraHealthSummary w a
        = executeGetOuraHealthSummary w (withoutBounds a)
     /\ executeGetOuraSleepData formatSleepData w a
        = executeGetOuraSleepData formatSleepData w (withoutBounds a)
     /\ executeGetOuraActivityData formatActivityData w a
        = executeGetOuraActivityData formatActivityData w (withoutBounds a)
     /\ executeGetOuraStressData formatStressData w a
        = executeGetOuraStressData formatStressData w (withoutBounds a)
     /\ executeGetOuraReadinessData formatReadinessData w a
        = executeGetOuraReadinessData formatReadinessData w (withoutBounds a))
    /\ (forall s e,
           arg_start_date a = Some s -> arg_end_date a = Some e ->
           s <> "" -> e <> "" ->
           determineDateRange w a = {| start_date := s; end_date := e |}).
Proof.
  intros fS fA fT fR w a. split.
  - intros H. pose proof (determineDateRange_period w a H) as Hrange.
    pose proof (determineDateRange_withoutBounds w a) as Hnone.
    split; [exact Hrange|].
    unfold executeGetOuraHealthSummary, healthSummaryBody,
      executeGetOuraSleepData, executeGetOuraActivityData,
      executeGetOuraStressData, executeGetOuraReadinessData.
    cbv zeta. rewrite Hrange, Hnone. repeat split.
  - intros s e. apply determineDateRange_explicit.
Qed.

(** ** The period resolver *)

Lemma days_in_month_bounds y m : 28 <= days_in_month y m <= 31.
Proof.
  unfold days_in_month.
  destruct (m =? 2); [destruct (is_leap_year y); lia|].
  destruct ((m =? 4) || (m =? 6) || (m =? 9) || (m =? 11)); lia.
Qed.

Lemma previous_day_valid d : valid_date d -> valid_date (previous_day d).
Proof.
  unfold valid_date, previous_day. intros [Hm Hd].
  destruct (Z.ltb_spec 1 (day d)); simpl.
  - lia.
  - destruct (Z.ltb_spec 1 (month d)); simpl.
    + pose proof (days_in_month_bounds (year d) (month d - 1)). lia.
    + change (days_in_month (year d - 1) 12) with 31. lia.
Qed.

Lemma next_previous_day d : valid_date d -> next_day (previous_day d) = d.
Proof.
  unfold valid_date, previous_day, next_day. intros [Hm Hd].
  destruct d as [y m dd]; simpl in *.
  destruct (Z.ltb_spec 1 dd); simpl.
  - destruct (Z.ltb_spec (dd - 1) (days_in_month y m)); [|lia].
    f_equal. lia.
  - destruct (Z.ltb_spec 1 m); simpl.
    + rewrite Z.ltb_irrefl. destruct (Z.ltb_spec (m - 1) 12); [|lia].
      f_equal; lia.
    + change (days_in_month (y - 1) 12) with 31. simpl.
      f_equal; lia.
Qed.

Lemma date_leb_refl d : date_leb d d = true.
Proof.
  unfold date_leb. rewrite !Z.eqb_refl, Z.leb_refl. simpl.
  now rewrite !orb_true_r.
Qed.

Lemma date_leb_spec a b :
  date_leb a b = true <->
  (year a < year b \/ (year a = year b /\ (month a < month b \/ (month a = month b /\ day a <= day b)))).
Proof.
  unfold date_leb.
  rewrite !orb_true_iff, !andb_true_iff, !orb_true_iff, !andb_true_iff.
  rewrite !Z.ltb_lt, !Z.eqb_eq, Z.leb_le. tauto.
Qed.

Lemma date_leb_trans a b c :
  date_leb a b = true -> date_leb b c = true -> date_leb a c = true.
Proof. rewrite !date_leb_spec. lia. Qed.

Lemma previous_day_leb d : valid_date d -> date_leb (previous_day d) d = true.
Proof.
  intros [Hm Hd]. rewrite date_leb_spec. unfold previous_day.
  destruct (Z.ltb_spec 1 (day d)); simpl; [lia|].
  destruct (Z.ltb_spec 1 (month d)); simpl; lia.
Qed.

Lemma minus_days_succ d n : minus_days d (S n) = previous_day (minus_days d n).
Proof. reflexivity. Qed.

Lemma minus_days_valid d n : valid_date d -> valid_date (minus_days d n).
Proof.
  intros H. induction n as [|n IH]; [exact H|].
  rewrite minus_days_succ. now apply previous_day_valid.
Qed.

Lemma minus_days_leb d n : valid_date d -> date_leb (minus_days d n) d = true.
Proof.
  intros H. induction n as [|n IH]; [apply date_leb_refl|].
  rewrite minus_days_succ.
  apply date_leb_trans with (minus_days d n); [|exact IH].
  apply previous_day_leb, minus_days_valid, H.
Qed.

Lemma iter_next_day_comm n d :
  Nat.iter n next_day (next_day d) = next_day (Nat.iter n next_day d).
Proof. induction n as [|n IH]; simpl; congruence. Qed.

Lemma plus_minus_days d n :
  valid_date d -> Nat.iter n next_day (minus_days d n) = d.
Proof.
  intros H. induction n as [|n IH]; [reflexivity|].
  rewrite minus_days_succ. simpl. rewrite <- iter_next_day_comm.
  rewrite next_previous_day; [exact IH|]. now apply minus_days_valid.
Qed.

(** Going back at most 31 days stays in the year or enters December of the
    year before. *)
Lemma minus_days_year d n :
  valid_date d -> (n <= 31)%nat ->
  year (minus_days d n) = year d
  \/ (year (minus_days d n) = year d - 1 /\ month (minus_days d n) = 12
      /\ 32 - Z.of_nat n <= day (minus_days d n)).
Proof.
  intros H. induction n as [|n IH]; intros Hn; [left; reflexivity|].
  rewrite minus_days_succ.
  pose proof (minus_days_valid d n H) as [Hm Hd].
  specialize (IH ltac:(lia)).
  destruct IH as [IH | (Hy & Hmo & Hday)].
  - unfold previous_day.
    destruct (Z.ltb_spec 1 (day (minus_days d n))); cbn [year month day];
      [left; exact IH|].
    destruct (Z.ltb_spec 1 (month (minus_days d n))); cbn [year month day];
      [left; exact IH|].
    right. lia.
  - unfold previous_day.
    destruct (Z.ltb_spec 1 (day (minus_days d n))); cbn [year month day];
      [right; lia | lia].
Qed.

Lemma minus_days_year_bounds d n :
  valid_date d -> (n <= 31)%nat ->
  year d - 1 <= year (minus_days d n) <= year d.
Proof. intros H Hn. destruct (minus_days_year d n H Hn); lia. Qed.

Lemma digit_is_digit n : is_digit (digit n) = true.
Proof.
  unfold digit. pose proof (Z.mod_pos_bound n 10 ltac:(lia)) as Hb.
  assert (exists k, (k < 10)%nat /\ Z.to_nat (n mod 10) = k) as (k & Hk & ->)
    by (exists (Z.to_nat (n mod 10)); split; [lia | reflexivity]).
  do 10 (destruct k as [|k]; [reflexivity|]). lia.
Qed.

Lemma formatDate_shape d : is_YYYY_MM_DD (formatDate d) = true.
Proof.
  unfold is_YYYY_MM_DD, formatDate, pad4, pad2.
  cbn [append list_ascii_of_string].
  rewrite !digit_is_digit. reflexivity.
Qed.

Lemma getDateRange_other (today : Date) (period : string) :
  period <> "today" -> period <> "yesterday" -> period <> "week" ->
  period <> "month" ->
  getDateRange today period = getDateRange today "week".
Proof.
  intros H1 H2 H3 H4. unfold getDateRange.
  apply String.eqb_neq in H1, H2, H3, H4. rewrite H1, H2, H3, H4.
  reflexivity.
Qed.

Lemma getDateRange_cases (today : Date) (period : string) :
  exists n m : nat,
    (m <= n <= 29)%nat
    /\ getDateRange today period = range_of (minus_days today n) (minus_days today m).
Proof.
  unfold getDateRange.
  destruct (period =? "today")%string; [exists 0%nat, 0%nat; split; [lia|reflexivity]|].
  destruct (period =? "yesterday")%string;
    [exists 1%nat, 1%nat; split; [lia|reflexivity]|].
  destruct (period =? "week")%string; [exists 6%nat, 0%nat; split; [lia|reflexivity]|].
  destruct (period =? "month")%string;
    [exists 29%nat, 0%nat; split; [lia|reflexivity]|].
  exists 6%nat, 0%nat; split; [lia|reflexivity].
Qed.

Lemma minus_days_add d n k : minus_days d (k + n) = minus_days (minus_days d n) k.
Proof. unfold minus_days. apply Nat.iter_add. Qed.

Lemma minus_days_mono d n m :
  valid_date d -> (m <= n)%nat ->
  date_leb (minus_days d n) (minus_days d m) = true.
Proof.
  intros H Hmn. replace n with ((n - m) + m)%nat by lia.
  rewrite minus_days_add. apply minus_days_leb, minus_days_valid, H.
Qed.

(** C8. Whatever the period token, the resolver returns a range whose
    start is not after its end, both rendered [YYYY-MM-DD] from valid
    calendar dates; [week] is today minus 6 days through today, seven
    days in all; a token outside [today], [yesterday], [week], [month]
    resolves to the range of [week].  The host's current date is a valid
    date of a year from 1 to 9999. *)
Theorem C8_period_resolver :
  forall today,
    valid_date today -> 1 <= year today <= 9999 ->
    (forall period,
        exists s e,
          getDateRange today period = range_of s e
          /\ valid_date s /\ valid_date e
          /\ 0 <= year s <= 9999 /\ 0 <= year e <= 9999
          /\ date_leb s e = true
          /\ is_YYYY_MM_DD (start_date (getDateRange today period)) = true
          /\ is_YYYY_MM_DD (end_date (getDateRange today period)) = true)
    /\ getDateRange today "week" = range_of (minus_days today 6) today
    /\ Nat.iter 6 next_day (minus_days today 6) = today
    /\ (forall period,
           period <> "today" -> period <> "yesterday" -> period <> "week" ->
           period <> "month" ->
           getDateRange today period = getDateRange today "week").
Proof.
  intros today Hvalid Hyear. split; [|split; [|split]].
  - intros period. destruct (getDateRange_cases today period) as (n & m & Hnm & ->).
    exists (minus_days today n), (minus_days today m).
    pose proof (minus_days_year_bounds today n Hvalid ltac:(lia)).
    pose proof (minus_days_year_bounds today m Hvalid ltac:(lia)).
    split; [reflexivity|].
    split; [apply (minus_days_valid today n Hvalid)|].
    split; [apply (minus_days_valid today m Hvalid)|].
    split; [lia|]. split; [lia|].
    split; [apply minus_days_mono; [exact Hvalid | lia]|].
    split; apply formatDate_shape.
  - reflexivity.
  - apply (plus_minus_days today 6 Hvalid).
  - apply getDateRange_other.
Qed.

(** ** The stable sort and the most frequent stress label *)

Section StableSort.

Context {A : Type} (key : A -> Z).












End StableSort.

Lemma summariesOf_In (stressData : list DailyStressModel)
    (s : optional DailyStressSummary) :
  In s (summariesOf stressData) <-> In s (map day_summary stressData) /\ s <> null.
Proof.
  unfold summariesOf. rewrite filter_In.
  destruct s; simpl; intuition congruence.
Qed.


Lemma filter_none {A} (P : A -> bool) (l : list A) :
  (forall x, In x l -> P x = false) -> filter P l = [].
Proof.
  induction l as [|x l IH]; intros H; [reflexivity|].
  simpl. rewrite (H x (or_introl eq_refl)). apply IH.
  intros y Hy. apply H. now right.
Qed.

Lemma last_all_undefined {A} (l : list (optional A)) :
  (forall x, In x l -> x = undefined) -> last l undefined = undefined.
Proof.
  induction l as [|x l IH]; intros H; [reflexivity|].
  destruct l as [|y l]; [apply H; now left|].
  apply IH. intros z Hz. apply H. now right.
Qed.

Lemma last_app_nonempty {A} (xs ys : list A) (d : A) :
  ys <> [] -> last (xs ++ ys) d = last ys d.
Proof.
  intros H. induction xs as [|x xs IH]; [reflexivity|].
  simpl. destruct (xs ++ ys)%list eqn:E; [|exact IH].
  apply app_eq_nil in E. tauto.
Qed.

(** One record without the [day_summary] key is enough for the label to be
    [undefined], whatever labels the other records carry. *)
Lemma mostCommonSummary_absent (stressData : list DailyStressModel) :
  In undefined (map day_summary stressData) ->
  mostCommonSummary stressData = undefined.
Proof.
  intros Hin. unfold mostCommonSummary. fold (summariesOf stressData).
  assert (In undefined (summariesOf stressData)) as Hs
    by (apply summariesOf_In; split; [exact Hin | discriminate]).
  rewrite ltb_length_nonempty by (intros E; rewrite E in Hs; destruct Hs).
  cbv zeta. unfold pop, sort. rewrite last_app_nonempty.
  - apply last_all_undefined. intros x Hx. apply filter_In in Hx.
    destruct x; simpl in Hx; intuition discriminate.
  - intros E.
    assert (In undefined (filter is_undefined (summariesOf stressData))) as H'
      by (apply filter_In; split; [exact Hs | reflexivity]).
    rewrite E in H'. destruct H'.
Qed.


Lemma mostCommonSummary_no_labels (stressData : list DailyStressModel) :
  summariesOf stressData = [] -> mostCommonSummary stressData = null.
Proof.
  intros E. unfold mostCommonSummary. fold (summariesOf stressData).
  rewrite E. reflexivity.
Qed.

(** C4. The label shown after "mostly" is meant to be the most frequent
    non-null day label of the fetched records.  On the records below the
    only labels are two "normal", yet the third record, which has no
    [day_summary] key, makes the line read "mostly N/A". *)
Theorem C4_absent_label_shows_NA :
  let records := [stressDoc (value 60) (value normal);
                  stressDoc (value 60) (value normal);
                  stressDoc (value 60) undefined] in
  non_null (map day_summary records) = [normal; normal]
  /\ mostCommonSummary records = undefined
  /\ stressLine (fetched records null)
     = "😰 **Stress**: 1 avg minutes/day, mostly N/A" ++ LF.
Proof. cbv zeta. repeat split. Qed.

(** ** The statements at concrete inputs *)

Lemma C2_witness :
  exists avg,
    rounds_to (mean (non_null (map sleep_score threeNights))) avg /\
    sleepLine (fetched threeNights null)
    = "😴 **Sleep**: Average score " ++ toString avg ++ "/100 ("
      ++ toString (Z.of_nat (List.length threeNights)) ++ " days)" ++ LF.
Proof.
  apply (proj1 C2_sleep_and_readiness_lines threeNights null);
    simpl; discriminate.
Defined.

Lemma C5_witness :
  exists avgSteps,
    rounds_to (mean (map activity_steps twoWalks)) avgSteps /\
    activityLine (fetched twoWalks null)
    = "🏃 **Activity**: " ++ toLocaleString avgSteps
      ++ " avg steps/day (no scores available)" ++ LF.
Proof.
  assert (twoWalks <> []) as Hne by (simpl; discriminate).
  destruct (proj1 C5_activity_average_steps twoWalks null Hne)
    as (avgSteps & Hround & Hnone & _).
  exists avgSteps. split; [exact Hround|]. apply Hnone. reflexivity.
Defined.

Lemma C6_witness :
  exists minutes,
    rounds_to (mean (non_null (map stress_high twoStressDays)) / 60)%Q minutes /\
    stressLine (fetched twoStressDays null)
    = "😰 **Stress**: " ++ toString minutes ++ " avg minutes/day, mostly "
      ++ summary_or_NA (mostCommonSummary twoStressDays) ++ LF.
Proof.
  apply (proj1 C6_stress_minutes twoStressDays null); simpl; discriminate.
Defined.

Lemma C3_witness :
  last (summaryPieces january failedFetch (fetched [] null)
          (fetched twoStressDays null) failedFetch) ""
  = noDataFoundInsight
  /\ last (summaryPieces january (fetched [sleepDoc (value 80)] null) failedFetch
             (fetched twoStressDays null) (fetched [readinessDoc null] null)) ""
     = limitedDataInsight
  /\ last (summaryPieces january (fetched [sleepDoc (value 80)] null)
             (fetched twoWalks null) failedFetch failedFetch) ""
     = goodCoverageInsight.
Proof.
  split; [|split].
  - pose proof (C3_coverage_insight_boundary january failedFetch (fetched [] null)
                  (fetched twoStressDays null) failedFetch) as H.
    cbv zeta in H. destruct H as (Hnone & _ & _ & _).
    apply Hnone. reflexivity.
  - pose proof (C3_coverage_insight_boundary january
                  (fetched [sleepDoc (value 80)] null) failedFetch
                  (fetched twoStressDays null) (fetched [readinessDoc null] null))
      as H.
    cbv zeta in H. destruct H as (_ & Hlimited & _ & _).
    apply Hlimited. right. reflexivity.
  - pose proof (C3_coverage_insight_boundary january
                  (fetched [sleepDoc (value 80)] null) (fetched twoWalks null)
                  failedFetch failedFetch) as H.
    cbv zeta in H. destruct H as (_ & _ & Hgood & _).
    apply Hgood. simpl. lia.
Defined.

Lemma C7_witness :
  In someDataTypesInsight
     (summaryPieces january (fetched threeNights null) (fetched twoWalks null)
        failedFetch (fetched [] null)).
Proof.
  apply (C7_failed_fetch_insight_iff january (fetched threeNights null)
           (fetched twoWalks null) failedFetch (fetched [] null)).
  right. right. left. reflexivity.
Defined.

Lemma C8_witness :
  getDateRange secondOfMarch "week"
  = range_of (minus_days secondOfMarch 6) secondOfMarch
  /\ Nat.iter 6 next_day (minus_days secondOfMarch 6) = secondOfMarch
  /\ getDateRange secondOfMarch "fortnight" = getDateRange secondOfMarch "week".
Proof.
  assert (valid_date secondOfMarch) as Hvalid
    by (unfold valid_date;
        change (days_in_month (year secondOfMarch) (month secondOfMarch)) with 31;
        simpl; lia).
  assert (1 <= year secondOfMarch <= 9999) as Hyear by (simpl; lia).
  destruct (C8_period_resolver secondOfMarch Hvalid Hyear)
    as (_ & Hweek & Hseven & Hother).
  split; [exact Hweek|]. split; [exact Hseven|].
  apply Hother; discriminate.
Defined.

Lemma C9_witness :
  determineDateRange unconfiguredWorld halfBoundedArgs
  = getDateRange (today unconfiguredWorld) (period halfBoundedArgs)
  /\ determineDateRange unconfiguredWorld boundedArgs = january.
Proof.
  pose proof (C9_bounds_need_both (fun _ => "") (fun _ => "") (fun _ => "")
                (fun _ => "") unconfiguredWorld halfBoundedArgs) as [Hhalf _].
  pose proof (C9_bounds_need_both (fun _ => "") (fun _ => "") (fun _ => "")
                (fun _ => "") unconfiguredWorld boundedArgs) as [_ Hboth].
  split.
  - apply Hhalf. right. left. reflexivity.
  - apply (Hboth "2024-01-01" "2024-01-31"); try reflexivity; discriminate.
Defined.

Lemma C10_witness :
  executeGetOuraHealthSummary unconfiguredWorld boundedArgs <> setupRequiredMessage
  /\ In someDataTypesInsight
        (summaryPieces (determineDateRange unconfiguredWorld boundedArgs)
           (rejected tokenNotConfigured) (rejected tokenNotConfigured)
           (rejected tokenNotConfigured) (rejected tokenNotConfigured)).
Proof.
  assert (token_missing unconfiguredWorld) as Hmissing by (left; reflexivity).
  pose proof (C10_missing_token_degrades unconfiguredWorld boundedArgs Hmissing)
    as H. cbv zeta in H.
  split; apply H.
Defined.

(** ** The request helper and the single-metric functions *)




Lemma makeOuraRequest_fetch_throws {T} (tok : string) (fetch : Fetch T)
    (endpoint : string) (params : list (string * string)) (e : Exn) :
  tok <> "" ->
  fetch (requestFor tok endpoint params) = throw e ->
  makeOuraRequest (Some tok) fetch endpoint params = throw e.
Proof.
  intros Htok Hfetch. destruct tok as [|c tok]; [congruence|].
  unfold makeOuraRequest. cbn [truthy_string negb].
  unfold requestFor in Hfetch. rewrite Hfetch. reflexivity.
Qed.

Lemma makeOuraRequest_ok {T} (tok : string) (fetch : Fetch T)
    (endpoint : string) (params : list (string * string)) (response : Response T) :
  tok <> "" ->
  fetch (requestFor tok endpoint params) = ret response ->
  response_ok response = true ->
  makeOuraRequest (Some tok) fetch endpoint params = response_json response.
Proof.
  intros Htok Hfetch Hok. destruct tok as [|c tok]; [congruence|].
  unfold makeOuraRequest. cbn [truthy_string negb].
  unfold requestFor in Hfetch. rewrite Hfetch. unfold ret, bind.
  rewrite Hok. reflexivity.
Qed.

Lemma makeOuraRequest_not_ok {T} (tok : string) (fetch : Fetch T)
    (endpoint : string) (params : list (string * string)) (response : Response T) :
  tok <> "" ->
  fetch (requestFor tok endpoint params) = ret response ->
  response_ok response = false ->
  exists message,
    makeOuraRequest (Some tok) fetch endpoint params
    = throw (OuraAPIUserError message
               (if response_status response =? 401 then authenticationFailedMessage
                else if response_status response =? 403 then accessDeniedMessage
                else if response_status response =? 429 then rateLimitMessage
                else apiErrorMessage (response_status response))).
Proof.
  intros Htok Hfetch Hok. destruct tok as [|c tok]; [congruence|].
  unfold makeOuraRequest. cbn [truthy_string negb].
  unfold requestFor in Hfetch. rewrite Hfetch. unfold ret, bind.
  rewrite Hok. cbn [negb].
  destruct (response_status response =? 401); [eexists; reflexivity|].
  destruct (response_status response =? 403); [eexists; reflexivity|].
  destruct (response_status response =? 429); [eexists; reflexivity|].
  eexists. reflexivity.
Qed.

(** X1. With a token configured, a response whose status is outside
    200-299 never yields data: the request rejects with the source's own
    error, and the text shown to the user is decided by the status alone
    (401, 403, 429, or the generic text naming the status); the response
    body reaches only the technical message. *)
Theorem X1_http_error_user_message :
  forall (T : Type) (tok : string) (fetch : Fetch T) (endpoint : string)
         (params : list (string * string)) (response : Response T),
    tok <> "" ->
    fetch (requestFor tok endpoint params) = ret response ->
    response_ok response = false ->
    exists message userMessage,
      makeOuraRequest (Some tok) fetch endpoint params
      = throw (OuraAPIUserError message userMessage)
      /\ (response_status response = 401 -> userMessage = authenticationFailedMessage)
      /\ (response_status response = 403 -> userMessage = accessDeniedMessage)
      /\ (response_status response = 429 -> userMessage = rateLimitMessage)
      /\ (response_status response <> 401 -> response_status response <> 403 ->
          response_status response <> 429 ->
          userMessage = apiErrorMessage (response_status response)).
Proof.
  intros T tok fetch endpoint params response Htok Hfetch Hok.
  destruct (makeOuraRequest_not_ok tok fetch endpoint params response Htok Hfetch Hok)
    as [message Hthrow].
  exists message. eexists. split; [exact Hthrow|].
  repeat split.
  - intros ->. reflexivity.
  - intros ->. reflexivity.
  - intros ->. reflexivity.
  - intros H1 H2 H3.
    apply Z.eqb_neq in H1, H2, H3. now rewrite H1, H2, H3.
Qed.

(** X2. An error that is not the source's own class can leave
    [makeOuraRequest] only when a token is configured and either [fetch]
    rejected with it or a 2xx response could not be read as JSON. *)
Theorem X2_other_errors_come_from_transport :
  forall (T : Type) (token : option string) (fetch : Fetch T) (endpoint : string)
         (params : list (string * string)) (m : string),
    makeOuraRequest token fetch endpoint params = throw (OtherError m) ->
    exists tok,
      token = Some tok /\ tok <> ""
      /\ (fetch (requestFor tok endpoint params) = throw (OtherError m)
          \/ exists response,
               fetch (requestFor tok endpoint params) = ret response
               /\ response_ok response = true
               /\ response_json response = throw (OtherError m)).
Proof.
  intros T token fetch endpoint params m H.
  destruct token as [tok|]; [|discriminate H].
  destruct tok as [|c tok]; [discriminate H|].
  exists (String c tok). split; [reflexivity|]. split; [discriminate|].
  assert (String c tok <> "") as Htok by discriminate.
  destruct (fetch (requestFor (String c tok) endpoint params)) as [e|response] eqn:Hfetch.
  - rewrite (makeOuraRequest_fetch_throws _ fetch endpoint params e Htok Hfetch) in H.
    left. injection H as ->. reflexivity.
  - right. exists response. split; [reflexivity|].
    destruct (response_ok response) eqn:Hok.
    + rewrite (makeOuraRequest_ok _ fetch endpoint params response Htok Hfetch Hok) in H.
      auto.
    + destruct (makeOuraRequest_not_ok _ fetch endpoint params response Htok Hfetch Hok)
        as [message Hthrow].
      rewrite Hthrow in H. discriminate H.
Qed.

Ltac run_metric H :=
  unfold executeGetOuraSleepData, executeGetOuraActivityData,
    executeGetOuraStressData, executeGetOuraReadinessData;
  cbv zeta; rewrite H; reflexivity.

(** X3. With no token configured, each of the four single-metric functions
    returns the setup-required message, whatever the network and the
    arguments. *)
Theorem X3_single_metric_missing_token :
  forall formatSleepData formatActivityData formatStressData formatReadinessData
         w a,
    token_missing w ->
    executeGetOuraSleepData formatSleepData w a = setupRequiredMessage
    /\ executeGetOuraActivityData formatActivityData w a = setupRequiredMessage
    /\ executeGetOuraStressData formatStressData w a = setupRequiredMessage
    /\ executeGetOuraReadinessData formatReadinessData w a = setupRequiredMessage.
Proof.
  intros fS fA fT fR w a Hmissing.
  repeat split.
  - run_metric (makeOuraRequest_token_missing (OURA_API_TOKEN w) (fetch_daily_sleep w)
                  "/usercollection/daily_sleep"
                  (queryParams (determineDateRange w a)) Hmissing).
  - run_metric (makeOuraRequest_token_missing (OURA_API_TOKEN w) (fetch_daily_activity w)
                  "/usercollection/daily_activity"
                  (queryParams (determineDateRange w a)) Hmissing).
  - run_metric (makeOuraRequest_token_missing (OURA_API_TOKEN w) (fetch_daily_stress w)
                  "/usercollection/daily_stress"
                  (queryParams (determineDateRange w a)) Hmissing).
  - run_metric (makeOuraRequest_token_missing (OURA_API_TOKEN w)
                  (fetch_daily_readiness w) "/usercollection/daily_readiness"
                  (queryParams (determineDateRange w a)) Hmissing).
Qed.

Lemma statusUserMessage_thrown {T} (tok : string) (fetch : Fetch T)
    (endpoint : string) (params : list (string * string)) (response : Response T) :
  tok <> "" ->
  fetch (requestFor tok endpoint params) = ret response ->
  response_ok response = false ->
  exists message,
    makeOuraRequest (Some tok) fetch endpoint params
    = inl (OuraAPIUserError message (statusUserMessage (response_status response))).
Proof. apply makeOuraRequest_not_ok. Qed.

Ltac run_metric_with E :=
  unfold executeGetOuraSleepData, executeGetOuraActivityData,
    executeGetOuraStressData, executeGetOuraReadinessData;
  cbv zeta; rewrite E; reflexivity.

(** X4. With a token configured, when the endpoint of a single-metric
    function answers with a status outside 200-299, the function returns
    the user-facing text of that status. *)
Theorem X4_single_metric_http_error :
  forall formatSleepData formatActivityData formatStressData formatReadinessData
         w a tok,
    OURA_API_TOKEN w = Some tok -> tok <> "" ->
    (forall response,
        fetch_daily_sleep w (metricRequest w a tok "/usercollection/daily_sleep") = ret response ->
        response_ok response = false ->
        executeGetOuraSleepData formatSleepData w a = statusUserMessage (response_status response))
    /\ (forall response,
        fetch_daily_activity w (metricRequest w a tok "/usercollection/daily_activity") = ret response ->
        response_ok response = false ->
        executeGetOuraActivityData formatActivityData w a = statusUserMessage (response_status response))
    /\ (forall response,
        fetch_daily_stress w (metricRequest w a tok "/usercollection/daily_stress") = ret response ->
        response_ok response = false ->
        executeGetOuraStressData formatStressData w a = statusUserMessage (response_status response))
    /\ (forall response,
        fetch_daily_readiness w (metricRequest w a tok "/usercollection/daily_readiness") = ret response ->
        response_ok response = false ->
        executeGetOuraReadinessData formatReadinessData w a = statusUserMessage (response_status response)).
Proof.
  intros fS fA fT fR w a tok Htoken Htok.
  repeat split; intros response Hfetch Hok;
    destruct (statusUserMessage_thrown tok _ _ _ response Htok Hfetch Hok)
      as [message Hthrow];
    rewrite <- Htoken in Hthrow; run_metric_with Hthrow.
Qed.

Lemma transport_failure_thrown {T} (tok : string) (fetch : Fetch T)
    (endpoint : string) (params : list (string * string)) (m : string) :
  tok <> "" ->
  (fetch (requestFor tok endpoint params) = throw (OtherError m)
   \/ exists response,
        fetch (requestFor tok endpoint params) = ret response
        /\ response_ok response = true
        /\ response_json response = throw (OtherError m)) ->
  makeOuraRequest (Some tok) fetch endpoint params = inl (OtherError m).
Proof.
  intros Htok [Hfetch | (response & Hfetch & Hok & Hjson)].
  - now apply makeOuraRequest_fetch_throws.
  - rewrite (makeOuraRequest_ok tok fetch endpoint params response Htok Hfetch Hok).
    exact Hjson.
Qed.

(** X5. With a token configured, when the request of a single-metric
    function fails in transport (the fetch rejects, or a 2xx body cannot
    be read), the function returns its fallback text, which names the
    metric. *)
Theorem X5_single_metric_transport_failure :
  forall formatSleepData formatActivityData formatStressData formatReadinessData
         w a tok,
    OURA_API_TOKEN w = Some tok -> tok <> "" ->
    (forall m,
        (fetch_daily_sleep w (metricRequest w a tok "/usercollection/daily_sleep") = throw (OtherError m)
         \/ exists response,
              fetch_daily_sleep w (metricRequest w a tok "/usercollection/daily_sleep") = ret response
              /\ response_ok response = true
              /\ response_json response = throw (OtherError m)) ->
        executeGetOuraSleepData formatSleepData w a
        = "❌ **Error**: Unable to fetch sleep data. Please try again later.")
    /\ (forall m,
        (fetch_daily_activity w (metricRequest w a tok "/usercollection/daily_activity") = throw (OtherError m)
         \/ exists response,
              fetch_daily_activity w (metricRequest w a tok "/usercollection/daily_activity") = ret response
              /\ response_ok response = true
              /\ response_json response = throw (OtherError m)) ->
        executeGetOuraActivityData formatActivityData w a
        = "❌ **Error**: Unable to fetch activity data. Please try again later.")
    /\ (forall m,
        (fetch_daily_stress w (metricRequest w a tok "/usercollection/daily_stress") = throw (OtherError m)
         \/ exists response,
              fetch_daily_stress w (metricRequest w a tok "/usercollection/daily_stress") = ret response
              /\ response_ok response = true
              /\ response_json response = throw (OtherError m)) ->
        executeGetOuraStressData formatStressData w a
        = "❌ **Error**: Unable to fetch stress data. Please try again later.")
    /\ (forall m,
        (fetch_daily_readiness w (metricRequest w a tok "/usercollection/daily_readiness") = throw (OtherError m)
         \/ exists response,
              fetch_daily_readiness w (metricRequest w a tok "/usercollection/daily_readiness") = ret response
              /\ response_ok response = true
              /\ response_json response = throw (OtherError m)) ->
        executeGetOuraReadinessData formatReadinessData w a
        = "❌ **Error**: Unable to fetch readiness data. Please try again later.").
Proof.
  intros fS fA fT fR w a tok Htoken Htok.
  repeat split; intros m Hfail;
    pose proof (transport_failure_thrown tok _ _ _ m Htok Hfail) as Hthrow;
    rewrite <- Htoken in Hthrow; run_metric_with Hthrow.
Qed.

(** X6. With a token configured, when the endpoint answers 2xx with a
    readable document, a single-metric function returns its formatter's
    rendering of the records of that one page. *)
Theorem X6_single_metric_success :
  forall formatSleepData formatActivityData formatStressData formatReadinessData
         w a tok,
    OURA_API_TOKEN w = Some tok -> tok <> "" ->
    (forall response document,
        fetch_daily_sleep w (metricRequest w a tok "/usercollection/daily_sleep") = ret response ->
        response_ok response = true ->
        response_json response = ret document ->
        executeGetOuraSleepData formatSleepData w a = formatSleepData (data document))
    /\ (forall response document,
        fetch_daily_activity w (metricRequest w a tok "/usercollection/daily_activity") = ret response ->
        response_ok response = true ->
        response_json response = ret document ->
        executeGetOuraActivityData formatActivityData w a = formatActivityData (data document))
    /\ (forall response document,
        fetch_daily_stress w (metricRequest w a tok "/usercollection/daily_stress") = ret response ->
        response_ok response = true ->
        response_json response = ret document ->
        executeGetOuraStressData formatStressData w a = formatStressData (data document))
    /\ (forall response document,
        fetch_daily_readiness w (metricRequest w a tok "/usercollection/daily_readiness") = ret response ->
        response_ok response = true ->
        response_json response = ret document ->
        executeGetOuraReadinessData formatReadinessData w a = formatReadinessData (data document)).
Proof.
  intros fS fA fT fR w a tok Htoken Htok.
  repeat split; intros response document Hfetch Hok Hjson;
    pose proof (makeOuraRequest_ok tok _ _ _ response Htok Hfetch Hok) as Hret;
    rewrite Hjson, <- Htoken in Hret; run_metric_with Hret.
Qed.

(** ** More on the summary *)

(** X7. The pieces of the summary do not depend on why a fetch failed: any
    rejection reason gives the same report. *)
Theorem X7_failure_reason_never_shown :
  forall dateRange sleepResponse activityResponse stressResponse readinessResponse,
    summaryPieces dateRange sleepResponse activityResponse stressResponse
      readinessResponse
    = summaryPieces dateRange (forgetReason sleepResponse)
        (forgetReason activityResponse) (forgetReason stressResponse)
        (forgetReason readinessResponse).
Proof.
  intros dateRange [s|es] [a|ea] [t|et] [r|er]; reflexivity.
Qed.

Lemma total_bounds (xs : list Z) (lo hi : Z) :
  (forall x, In x xs -> lo <= x <= hi) ->
  lo * Z.of_nat (List.length xs) <= total xs <= hi * Z.of_nat (List.length xs).
Proof.
  induction xs as [|x xs IH]; intros H.
  - simpl. lia.
  - assert (lo <= x <= hi) as Hx by (apply H; now left).
    assert (forall y, In y xs -> lo <= y <= hi) as Hxs by (intros y Hy; apply H; now right).
    specialize (IH Hxs). cbn [total fold_right List.length].
    fold (total xs). rewrite Nat2Z.inj_succ. lia.
Qed.

Lemma mean_bounds (xs : list Z) (lo hi : Z) :
  xs <> [] ->
  (forall x, In x xs -> lo <= x <= hi) ->
  (inject_Z lo <= mean xs /\ mean xs <= inject_Z hi)%Q.
Proof.
  intros Hne H. pose proof (total_bounds xs lo hi H) as [Hlo Hhi].
  unfold mean.
  assert (0 < Z.of_nat (List.length xs)) as Hlen
    by (destruct xs; [congruence | simpl; lia]).
  set (n := Z.of_nat (List.length xs)) in *.
  assert (0 < inject_Z n)%Q as Hn
    by (change 0%Q with (inject_Z 0); rewrite <- Zlt_Qlt; exact Hlen).
  split.
  - apply Qle_shift_div_l; [exact Hn|].
    rewrite <- inject_Z_mult. rewrite <- Zle_Qle. lia.
  - apply Qle_shift_div_r; [exact Hn|].
    rewrite <- inject_Z_mult. rewrite <- Zle_Qle. lia.
Qed.

Lemma rounds_to_bounds (q : Q) (r lo hi : Z) :
  rounds_to q r -> (inject_Z lo <= q)%Q -> (q <= inject_Z hi)%Q -> lo <= r <= hi.
Proof.
  intros [H1 H2] Hlo Hhi.
  assert (inject_Z lo < inject_Z r + 1)%Q as A by lra.
  assert (inject_Z r < inject_Z hi + 1)%Q as B by lra.
  change 1%Q with (inject_Z 1) in A, B.
  rewrite <- inject_Z_plus in A, B. rewrite <- Zlt_Qlt in A, B. lia.
Qed.

Lemma Math_round_mean_bounds (xs : list Z) (lo hi : Z) :
  xs <> [] ->
  (forall x, In x xs -> lo <= x <= hi) ->
  lo <= Math_round (mean xs) <= hi.
Proof.
  intros Hne H. destruct (mean_bounds xs lo hi Hne H) as [Hlo Hhi].
  exact (rounds_to_bounds _ _ lo hi (Math_round_rounds_to (mean xs)) Hlo Hhi).
Qed.

Lemma non_null_In {D} (field : D -> optional Z) (xs : list D) (n : Z) :
  In n (non_null (map field xs)) <-> exists d, In d xs /\ field d = value n.
Proof.
  induction xs as [|x xs IH]; simpl.
  - split; [tauto | intros (d & [] & _)].
  - destruct (field x) as [| |m] eqn:E; simpl; rewrite IH; split.
    + intros (d & Hd & Hf). eauto.
    + intros (d & [-> | Hd] & Hf); [congruence | eauto].
    + intros (d & Hd & Hf). eauto.
    + intros (d & [-> | Hd] & Hf); [congruence | eauto].
    + intros [-> | (d & Hd & Hf)]; eauto.
    + intros (d & [-> | Hd] & Hf); [left; congruence | eauto].
Qed.

(** X8. When every score of the fetched records lies between two bounds,
    so does the average shown on the sleep line and on the readiness
    line; scores of 0 to 100 give an average of 0 to 100. *)
Theorem X8_average_score_within_score_range :
  forall (lo hi : Z),
    (forall records token,
        (forall d n, In d records -> sleep_score d = value n -> lo <= n <= hi) ->
        non_null (map sleep_score records) <> [] ->
        exists avg,
          lo <= avg <= hi /\
          sleepLine (fetched records token)
          = "😴 **Sleep**: Average score " ++ toString avg ++ "/100 ("
            ++ toString (Z.of_nat (List.length records)) ++ " days)" ++ LF)
    /\ (forall records token,
        (forall d n, In d records -> readiness_score d = value n -> lo <= n <= hi) ->
        non_null (map readiness_score records) <> [] ->
        exists avg,
          lo <= avg <= hi /\
          readinessLine (fetched records token)
          = "⚡ **Readiness**: Average score " ++ toString avg ++ "/100 ("
            ++ toString (Z.of_nat (List.length records)) ++ " days)" ++ LF).
Proof.
  intros lo hi. split; intros records token Hrange Hsome.
  - assert (records <> []) as Hne by (intros ->; now apply Hsome).
    eexists. split; [|now apply sleepLine_average].
    apply Math_round_mean_bounds; [exact Hsome|].
    intros n Hn. apply non_null_In in Hn. destruct Hn as (d & Hd & Hf). eauto.
  - assert (records <> []) as Hne by (intros ->; now apply Hsome).
    eexists. split; [|now apply readinessLine_average].
    apply Math_round_mean_bounds; [exact Hsome|].
    intros n Hn. apply non_null_In in Hn. destruct Hn as (d & Hd & Hf). eauto.
Qed.

(** X9. When the steps of every fetched activity record lie between two
    bounds, so does the average shown on the activity line, in either
    variant of the line. *)
Theorem X9_average_steps_within_step_range :
  forall records token (lo hi : Z),
    records <> [] ->
    (forall d, In d records -> lo <= activity_steps d <= hi) ->
    exists avgSteps,
      lo <= avgSteps <= hi /\
      (activityLine (fetched records token)
       = "🏃 **Activity**: " ++ toLocaleString avgSteps
         ++ " avg steps/day (no scores available)" ++ LF
       \/ exists avgScore,
            activityLine (fetched records token)
            = "🏃 **Activity**: Average score " ++ toString avgScore ++ "/100, "
              ++ toLocaleString avgSteps ++ " avg steps/day" ++ LF).
Proof.
  intros records token lo hi Hne Hrange.
  exists (Math_round (mean (map activity_steps records))). split.
  - apply Math_round_mean_bounds.
    + destruct records; [congruence | discriminate].
    + intros x Hx. apply in_map_iff in Hx. destruct Hx as (d & <- & Hd). auto.
  - unfold activityLine, fetched. cbn [data].
    rewrite (ltb_length_nonempty _ Hne).
    destruct (0 <? List.length (filter (fun d => present (activity_score d)) records))%nat;
      cbv zeta; rewrite steps_average.
    + right. eexists. reflexivity.
    + left. reflexivity.
Qed.

Lemma reduce_sum_Permutation {D} (f : D -> Z) (xs ys : list D) :
  Permutation xs ys -> reduce_sum f xs = reduce_sum f ys.
Proof.
  induction 1 as [|x xs ys _ IH|x y xs|xs ys zs _ IH1 _ IH2].
  - reflexivity.
  - rewrite !reduce_sum_cons. lia.
  - rewrite !reduce_sum_cons. lia.
  - congruence.
Qed.

Lemma filter_Permutation {D} (p : D -> bool) (xs ys : list D) :
  Permutation xs ys -> Permutation (filter p xs) (filter p ys).
Proof.
  induction 1 as [|x xs ys _ IH|x y xs|xs ys zs _ IH1 _ IH2]; simpl.
  - constructor.
  - destruct (p x); [now constructor | exact IH].
  - destruct (p x), (p y); try apply Permutation_refl. constructor.
  - now apply Permutation_trans with (filter p ys).
Qed.

Lemma divide_by_length_Permutation {D} (f : D -> Z) (xs ys : list D) :
  Permutation xs ys ->
  divide_by_length (reduce_sum f xs) xs = divide_by_length (reduce_sum f ys) ys.
Proof.
  intros H. unfold divide_by_length.
  now rewrite (reduce_sum_Permutation f xs ys H), (Permutation_length H).
Qed.

(** X10. The sleep, activity and readiness lines do not depend on the order
    in which the records were fetched, nor on the page token. *)
Theorem X10_score_lines_ignore_record_order :
  (forall records records' token token',
      Permutation records records' ->
      sleepLine (fetched records token) = sleepLine (fetched records' token'))
  /\ (forall records records' token token',
      Permutation records records' ->
      activityLine (fetched records token) = activityLine (fetched records' token'))
  /\ (forall records records' token token',
      Permutation records records' ->
      readinessLine (fetched records token) = readinessLine (fetched records' token')).
Proof.
  split; [|split]; intros records records' token token' Hperm.
  - unfold sleepLine, fetched, length_text. cbn [data].
    pose proof (filter_Permutation (fun d => present (sleep_score d)) _ _ Hperm) as Hf.
    rewrite (Permutation_length Hperm), (Permutation_length Hf).
    rewrite (divide_by_length_Permutation _ _ _ Hf). reflexivity.
  - unfold activityLine, fetched. cbn [data].
    pose proof (filter_Permutation (fun d => present (activity_score d)) _ _ Hperm) as Hf.
    rewrite (Permutation_length Hperm), (Permutation_length Hf).
    rewrite (divide_by_length_Permutation _ _ _ Hf).
    rewrite (divide_by_length_Permutation _ _ _ Hperm). reflexivity.
  - unfold readinessLine, fetched, length_text. cbn [data].
    pose proof (filter_Permutation (fun d => present (readiness_score d)) _ _ Hperm) as Hf.
    rewrite (Permutation_length Hperm), (Permutation_length Hf).
    rewrite (divide_by_length_Permutation _ _ _ Hf). reflexivity.
Qed.


Lemma stressLine_label (records : list DailyStressModel) (token : optional string) :
  records <> [] -> non_null (map stress_high records) <> [] ->
  stressLine (fetched records token)
  = "😰 **Stress**: "
    ++ toString (Math_round (mean (non_null (map stress_high records)) / 60)%Q)
    ++ " avg minutes/day, mostly "
    ++ summary_or_NA (mostCommonSummary records) ++ LF.
Proof.
  intros Hrec Hhigh. unfold stressLine, fetched. cbn [data].
  rewrite (ltb_length_nonempty _ Hrec). cbv zeta.
  rewrite (valid_nonempty stress_high _ Hhigh), (valid_average stress_high).
  reflexivity.
Qed.

(** X12. When some stress record has no [day_summary] key while a
    high-stress duration is present, the stress line ends in [mostly
    N/A], whatever labels the other records carry. *)
Theorem X12_absent_label_key_shows_NA :
  forall records token,
    non_null (map stress_high records) <> [] ->
    In undefined (map day_summary records) ->
    stressLine (fetched records token)
    = "😰 **Stress**: "
      ++ toString (Math_round (mean (non_null (map stress_high records)) / 60)%Q)
      ++ " avg minutes/day, mostly N/A" ++ LF.
Proof.
  intros records token Hhigh Habsent.
  assert (records <> []) as Hne by (intros ->; destruct Habsent).
  rewrite (stressLine_label records token Hne Hhigh).
  rewrite (mostCommonSummary_absent records Habsent). reflexivity.
Qed.

(** X13. When every label is null while a high-stress duration is present,
    the stress line ends in [mostly N/A]. *)
Theorem X13_no_labels_shows_NA :
  forall records token,
    non_null (map stress_high records) <> [] ->
    (forall d, In d records -> day_summary d = null) ->
    stressLine (fetched records token)
    = "😰 **Stress**: "
      ++ toString (Math_round (mean (non_null (map stress_high records)) / 60)%Q)
      ++ " avg minutes/day, mostly N/A" ++ LF.
Proof.
  intros records token Hhigh Hnull.
  assert (records <> []) as Hne by (intros ->; now apply Hhigh).
  rewrite (stressLine_label records token Hne Hhigh).
  rewrite mostCommonSummary_no_labels; [reflexivity|].
  unfold summariesOf. apply filter_none.
  intros x Hx. apply in_map_iff in Hx. destruct Hx as (d & <- & Hd).
  now rewrite (Hnull d Hd).
Qed.

(** ** Strings and the formatters *)

Lemma append_assoc (a b c : string) : (a ++ b) ++ c = a ++ b ++ c.
Proof. induction a as [|x a IH]; simpl; congruence. Qed.

Lemma append_empty_r (a : string) : a ++ "" = a.
Proof. induction a as [|x a IH]; simpl; congruence. Qed.

Lemma list_ascii_of_string_app (a b : string) :
  list_ascii_of_string (a ++ b)
  = (list_ascii_of_string a ++ list_ascii_of_string b)%list.
Proof. induction a as [|x a IH]; simpl; congruence. Qed.

Lemma string_of_list_ascii_app (a b : list ascii) :
  string_of_list_ascii (a ++ b) = string_of_list_ascii a ++ string_of_list_ascii b.
Proof. induction a as [|x a IH]; simpl; congruence. Qed.

Lemma concat_empty_sep (l : list string) :
  String.concat "" l = fold_right append "" l.
Proof.
  induction l as [|x l IH]; [reflexivity|].
  destruct l as [|y l]; [simpl; now rewrite append_empty_r|].
  change (String.concat "" (x :: y :: l)) with (x ++ "" ++ String.concat "" (y :: l)).
  rewrite IH. reflexivity.
Qed.

Lemma fold_left_append {D} (block : D -> string) (l : list D) (acc : string) :
  fold_left (fun response d => response ++ block d) l acc
  = acc ++ String.concat "" (map block l).
Proof.
  rewrite concat_empty_sep. revert acc.
  induction l as [|x l IH]; intros acc; simpl.
  - now rewrite append_empty_r.
  - rewrite IH, append_assoc. reflexivity.
Qed.

(** ** Trimming *)

Lemma strip_keep (w1 : ascii -> bool) (w2 : ascii -> ascii -> bool)
    (w3 : ascii -> ascii -> ascii -> bool) (a : ascii) (t : list ascii) :
  w1 a = false -> (forall b, w2 a b = false) -> (forall b c, w3 a b c = false) ->
  strip w1 w2 w3 (a :: t) = a :: t.
Proof.
  intros H1 H2 H3. cbn [strip]. rewrite H1.
  destruct t as [|b t]; [reflexivity|]. rewrite H2.
  destruct t as [|c t]; [reflexivity|]. now rewrite H3.
Qed.

Lemma strip_skip (w1 : ascii -> bool) (w2 : ascii -> ascii -> bool)
    (w3 : ascii -> ascii -> ascii -> bool) (a : ascii) (t : list ascii) :
  w1 a = true -> strip w1 w2 w3 (a :: t) = strip w1 w2 w3 t.
Proof. intros H. cbn [strip]. now rewrite H. Qed.

Lemma printable_bounds (c : ascii) :
  printable c = true -> (33 <= code c <= 126)%N.
Proof.
  unfold printable. rewrite andb_true_iff, !N.leb_le. tauto.
Qed.

Lemma printable_not_ws1 (c : ascii) : printable c = true -> ws1 c = false.
Proof.
  intros H. apply printable_bounds in H. unfold ws1.
  rewrite (proj2 (N.leb_gt (code c) 13)) by lia.
  rewrite (proj2 (N.eqb_neq (code c) 32)) by lia.
  now rewrite andb_false_r.
Qed.

Lemma printable_not_ws2 (c b : ascii) : printable c = true -> ws2 b c = false.
Proof.
  intros H. apply printable_bounds in H. unfold ws2.
  rewrite (proj2 (N.eqb_neq (code c) 160)) by lia. apply andb_false_r.
Qed.

Lemma printable_not_ws3 (c a b : ascii) : printable c = true -> ws3 a b c = false.
Proof.
  intros H. apply printable_bounds in H. unfold ws3.
  rewrite (proj2 (N.eqb_neq (code c) 128)) by lia.
  rewrite (proj2 (N.leb_gt 128 (code c))) by lia.
  rewrite (proj2 (N.eqb_neq (code c) 168)) by lia.
  rewrite (proj2 (N.eqb_neq (code c) 169)) by lia.
  rewrite (proj2 (N.eqb_neq (code c) 175)) by lia.
  rewrite (proj2 (N.eqb_neq (code c) 159)) by lia.
  rewrite (proj2 (N.eqb_neq (code c) 191)) by lia.
  cbn [andb orb]. now rewrite !andb_false_r.
Qed.

(** Trimming a text that opens with a four-byte character and closes
    with a visible ASCII byte followed by two line feeds removes the two
    line feeds and nothing else. *)
Lemma trim_blank_line (rest body : string) (c : ascii) :
  printable c = true ->
  String emoji_lead rest = body ++ String c (LF ++ LF) ->
  trim (String emoji_lead rest) = body ++ String c "".
Proof.
  intros Hc Heq. unfold trim.
  assert (trimStart (list_ascii_of_string (String emoji_lead rest))
          = list_ascii_of_string (String emoji_lead rest)) as ->.
  { cbn [list_ascii_of_string]. unfold trimStart. apply strip_keep; reflexivity. }
  rewrite Heq, list_ascii_of_string_app. cbn [list_ascii_of_string append LF].
  unfold trimEnd. rewrite rev_app_distr. cbn [rev app].
  rewrite !strip_skip by reflexivity.
  rewrite strip_keep.
  - cbn [rev]. rewrite rev_involutive, string_of_list_ascii_app.
    now rewrite string_of_list_ascii_of_string.
  - now apply printable_not_ws1.
  - intros b. now apply printable_not_ws2.
  - intros a b. now apply printable_not_ws3.
Qed.

(** ** How the blocks end *)

Lemma ends_printable_app (a b : string) : ends_printable b -> ends_printable (a ++ b).
Proof.
  intros (body & c & -> & Hc). exists (a ++ body), c.
  split; [now rewrite append_assoc | exact Hc].
Qed.

Lemma ends_printable_cons (x : ascii) (s : string) :
  ends_printable s -> ends_printable (String x s).
Proof. apply (ends_printable_app (String x "")). Qed.

Lemma ends_printable_single (c : ascii) : printable c = true -> ends_printable (String c "").
Proof. intros H. exists "", c. split; [reflexivity | exact H]. Qed.

Lemma string_of_uint_printable (d : Decimal.uint) :
  d <> Decimal.Nil -> ends_printable (NilEmpty.string_of_uint d).
Proof.
  induction d as [|d IH|d IH|d IH|d IH|d IH|d IH|d IH|d IH|d IH|d IH];
    intros Hne; [congruence| | | | | | | | | |];
    cbn [NilEmpty.string_of_uint];
    (destruct d;
     [apply ends_printable_single; reflexivity
     | apply ends_printable_cons, IH; discriminate ..]).
Qed.

Lemma Pos_to_uint_not_Nil (p : positive) : Pos.to_uint p <> Decimal.Nil.
Proof.
  apply DecimalPos.Unsigned.to_uint_nonnil.
Qed.

Lemma NilZero_string_of_uint_printable (d : Decimal.uint) :
  d <> Decimal.Nil -> ends_printable (NilZero.string_of_uint d).
Proof.
  intros Hne. pose proof (string_of_uint_printable d Hne) as H.
  destruct d; [congruence | exact H ..].
Qed.

Lemma toString_ends_printable (n : Z) : ends_printable (toString n).
Proof.
  unfold toString. destruct n as [|p|p]; cbn [Z.to_int NilZero.string_of_int].
  - apply ends_printable_single. reflexivity.
  - apply NilZero_string_of_uint_printable, Pos_to_uint_not_Nil.
  - apply ends_printable_cons, NilZero_string_of_uint_printable, Pos_to_uint_not_Nil.
Qed.

Lemma scoreText_ends_printable (score : optional Z) : ends_printable (scoreText score).
Proof.
  unfold scoreText. destruct score as [| |n].
  - exists "N/", "A"%char. split; reflexivity.
  - exists "N/", "A"%char. split; reflexivity.
  - destruct (n =? 0).
    + exists "N/", "A"%char. split; reflexivity.
    + apply ends_printable_app. exists "/10", "0"%char. split; reflexivity.
Qed.

Lemma minutesText_ends_printable (seconds : optional Z) :
  ends_printable (minutesText seconds).
Proof.
  unfold minutesText. destruct seconds as [| |n].
  - exists "N/", "A"%char. split; reflexivity.
  - exists "N/", "A"%char. split; reflexivity.
  - destruct (n =? 0).
    + exists "N/", "A"%char. split; reflexivity.
    + apply ends_printable_app. exists " minute", "s"%char. split; reflexivity.
Qed.

Lemma contributorItem_ends_printable (label : string) (x : optional Z) (item : string) :
  In item (contributorItem label x) -> ends_printable item.
Proof.
  unfold contributorItem. destruct x as [| |n]; try (intros []).
  destruct (n =? 0); [intros []|]. intros [<- | []].
  apply ends_printable_app, ends_printable_app, toString_ends_printable.
Qed.

Lemma concat_ends_printable (sep : string) (items : list string) :
  items <> [] -> (forall item, In item items -> ends_printable item) ->
  ends_printable (String.concat sep items).
Proof.
  induction items as [|x items IH]; [congruence|]. intros _ H.
  destruct items as [|y items].
  - apply H. now left.
  - change (String.concat sep (x :: y :: items))
      with (x ++ sep ++ String.concat sep (y :: items)).
    apply ends_printable_app, ends_printable_app, IH; [discriminate|].
    intros item Hitem. apply H. now right.
Qed.

(** A text ending in a visible byte, followed by the two line feeds that
    close a block. *)
Lemma blank_line_after (s : string) :
  ends_printable s ->
  exists body c, s ++ LF ++ LF = body ++ String c (LF ++ LF) /\ printable c = true.
Proof.
  intros (body & c & -> & Hc). exists body, c. split; [|exact Hc].
  now rewrite append_assoc.
Qed.

Lemma contributorsLine_blank_line (head : string) (items : list string) :
  ends_printable head ->
  (forall item, In item items -> ends_printable item) ->
  exists body c,
    head ++ LF ++ contributorsLine items ++ LF = body ++ String c (LF ++ LF)
    /\ printable c = true.
Proof.
  intros Hhead Hitems. unfold contributorsLine.
  destruct items as [|x items].
  - cbn [List.length Nat.ltb Nat.leb]. apply (blank_line_after head Hhead).
  - cbn [List.length Nat.ltb Nat.leb].
    assert (ends_printable (head ++ LF ++ "• **Contributors**: "
                            ++ String.concat ", " (x :: items))) as H.
    { apply ends_printable_app, ends_printable_app, ends_printable_app,
        concat_ends_printable; [discriminate | exact Hitems]. }
    destruct (blank_line_after _ H) as (body & c & Heq & Hc).
    exists body, c. split; [|exact Hc]. rewrite <- Heq.
    rewrite !append_assoc. reflexivity.
Qed.

Lemma sleepBlock_blank_line (sleep : DailySleepModel) :
  exists body c,
    sleepBlock sleep = body ++ String c (LF ++ LF) /\ printable c = true.
Proof.
  destruct (contributorsLine_blank_line
              ("📅 **" ++ sleep_day sleep ++ "**" ++ LF
               ++ "• **Score**: " ++ scoreText (sleep_score sleep))
              (sleepContributorItems (sleep_contributors sleep)))
    as (body & c & Heq & Hc).
  - do 5 apply ends_printable_app. apply scoreText_ends_printable.
  - unfold sleepContributorItems. intros item Hitem.
    repeat (apply in_app_or in Hitem; destruct Hitem as [Hitem | Hitem]);
      exact (contributorItem_ends_printable _ _ _ Hitem).
  - exists body, c. split; [|exact Hc]. rewrite <- Heq.
    unfold sleepBlock. rewrite !append_assoc. reflexivity.
Qed.

Lemma activityBlock_blank_line (activity : DailyActivityModel) :
  exists body c,
    activityBlock activity = body ++ String c (LF ++ LF) /\ printable c = true.
Proof.
  destruct (contributorsLine_blank_line
              ("📅 **" ++ activity_day activity ++ "**" ++ LF
               ++ "• **Score**: " ++ scoreText (activity_score activity) ++ LF
               ++ "• **Steps**: " ++ toLocaleString (activity_steps activity) ++ LF
               ++ "• **Total Calories**: "
               ++ toString (activity_total_calories activity) ++ " kcal" ++ LF
               ++ "• **Active Calories**: "
               ++ toString (activity_active_calories activity) ++ " kcal")
              (activityContributorItems (activity_contributors activity)))
    as (body & c & Heq & Hc).
  - do 16 apply ends_printable_app. exists " kca", "l"%char. split; reflexivity.
  - unfold activityContributorItems. intros item Hitem.
    repeat (apply in_app_or in Hitem; destruct Hitem as [Hitem | Hitem]);
      exact (contributorItem_ends_printable _ _ _ Hitem).
  - exists body, c. split; [|exact Hc]. rewrite <- Heq.
    unfold activityBlock. rewrite !append_assoc. reflexivity.
Qed.

Lemma stressBlock_blank_line (stress : DailyStressModel) :
  exists body c,
    stressBlock stress = body ++ String c (LF ++ LF) /\ printable c = true.
Proof.
  destruct (blank_line_after
              ("📅 **" ++ stress_day stress ++ "**" ++ LF
               ++ "• **Day Summary**: " ++ summaryText (day_summary stress) ++ LF
               ++ "• **High Stress Time**: " ++ minutesText (stress_high stress) ++ LF
               ++ "• **High Recovery Time**: " ++ minutesText (recovery_high stress)))
    as (body & c & Heq & Hc).
  - do 11 apply ends_printable_app. apply minutesText_ends_printable.
  - exists body, c. split; [|exact Hc]. rewrite <- Heq.
    unfold stressBlock. rewrite !append_assoc. reflexivity.
Qed.

Lemma concat_blocks_last {D} (block : D -> string) (l : list D) (x : D) :
  String.concat "" (map block (l ++ [x]))
  = String.concat "" (map block l) ++ block x.
Proof.
  rewrite !concat_empty_sep, map_app, fold_right_app. cbn [map fold_right].
  rewrite append_empty_r.
  induction (map block l) as [|y ys IH]; [reflexivity|].
  cbn [fold_right]. now rewrite IH, append_assoc.
Qed.

(** The loop-and-trim scheme shared by the formatters: the trimmed text
    is the header followed by the blocks, short of the blank line that
    closes the last block. *)
Lemma trimmed_blocks {D} (block : D -> string) (header : string) (l : list D) :
  starts_with emoji_lead header ->
  (forall d, exists body c,
        block d = body ++ String c (LF ++ LF) /\ printable c = true) ->
  l <> [] ->
  trim (fold_left (fun response d => response ++ block d) l header) ++ LF ++ LF
  = header ++ String.concat "" (map block l).
Proof.
  intros [rest ->] Hblock Hne. rewrite fold_left_append.
  destruct (exists_last Hne) as (l' & x & ->).
  rewrite concat_blocks_last.
  destruct (Hblock x) as (body & c & -> & Hc).
  rewrite <- !append_assoc.
  set (front := (String emoji_lead rest ++ String.concat "" (map block l')) ++ body).
  assert (exists rest', front ++ String c (LF ++ LF) = String emoji_lead rest')
    as [rest' Hlead].
  { subst front. rewrite !append_assoc. eexists. reflexivity. }
  rewrite Hlead. rewrite (trim_blank_line rest' front c Hc (eq_sym Hlead)).
  rewrite <- Hlead. rewrite !append_assoc. reflexivity.
Qed.

Lemma formatSleepData_blocks (sleepData : list DailySleepModel) :
  sleepData <> [] ->
  formatSleepData sleepData ++ LF ++ LF
  = "😴 **Sleep Summary**" ++ LF ++ LF ++ String.concat "" (map sleepBlock sleepData).
Proof.
  intros Hne. unfold formatSleepData.
  destruct sleepData as [|d records]; [congruence|]. cbn [List.length Nat.eqb].
  rewrite (trimmed_blocks sleepBlock); [now rewrite !append_assoc| | |discriminate].
  - eexists. reflexivity.
  - apply sleepBlock_blank_line.
Qed.

Lemma formatActivityData_blocks (activityData : list DailyActivityModel) :
  activityData <> [] ->
  formatActivityData activityData ++ LF ++ LF
  = "🏃 **Activity Summary**" ++ LF ++ LF
    ++ String.concat "" (map activityBlock activityData).
Proof.
  intros Hne. unfold formatActivityData.
  destruct activityData as [|d records]; [congruence|]. cbn [List.length Nat.eqb].
  rewrite (trimmed_blocks activityBlock); [now rewrite !append_assoc| | |discriminate].
  - eexists. reflexivity.
  - apply activityBlock_blank_line.
Qed.

Lemma formatStressData_blocks (stressData : list DailyStressModel) :
  stressData <> [] ->
  formatStressData stressData ++ LF ++ LF
  = "😰 **Stress Summary**" ++ LF ++ LF
    ++ String.concat "" (map stressBlock stressData).
Proof.
  intros Hne. unfold formatStressData.
  destruct stressData as [|d records]; [congruence|]. cbn [List.length Nat.eqb].
  rewrite (trimmed_blocks stressBlock); [now rewrite !append_assoc| | |discriminate].
  - eexists. reflexivity.
  - apply stressBlock_blank_line.
Qed.

(** X14. For a non-empty list each of the sleep, activity and stress
    formatters returns its header followed by one block per record, in
    order, short of the blank line that closes the last block: trimming
    removes those two line feeds and nothing else. *)
Theorem X14_formatters_drop_only_the_last_blank_line :
  (forall sleepData,
      sleepData <> [] ->
      formatSleepData sleepData ++ LF ++ LF
      = "😴 **Sleep Summary**" ++ LF ++ LF
        ++ String.concat "" (map sleepBlock sleepData))
  /\ (forall activityData,
      activityData <> [] ->
      formatActivityData activityData ++ LF ++ LF
      = "🏃 **Activity Summary**" ++ LF ++ LF
        ++ String.concat "" (map activityBlock activityData))
  /\ (forall stressData,
      stressData <> [] ->
      formatStressData stressData ++ LF ++ LF
      = "😰 **Stress Summary**" ++ LF ++ LF
        ++ String.concat "" (map stressBlock stressData)).
Proof.
  split; [|split].
  - intros sleepData Hne. now apply formatSleepData_blocks.
  - intros activityData Hne. now apply formatActivityData_blocks.
  - intros stressData Hne. now apply formatStressData_blocks.
Qed.

(** X15. The sleep, activity and stress formatters return their [No ...
    data found] text for the empty list and for no other list. *)
Theorem X15_no_data_message_iff_empty :
  (forall sleepData, formatSleepData sleepData = noSleepDataMessage <-> sleepData = [])
  /\ (forall activityData,
         formatActivityData activityData = noActivityDataMessage <-> activityData = [])
  /\ (forall stressData,
         formatStressData stressData = noStressDataMessage <-> stressData = []).
Proof.
  split; [|split]; intros records; (split; [|intros ->; reflexivity]).
  - intros Heq. destruct records as [|d records]; [reflexivity|]. exfalso.
    pose proof (formatSleepData_blocks (d :: records) ltac:(discriminate)) as H.
    rewrite Heq in H. discriminate H.
  - intros Heq. destruct records as [|d records]; [reflexivity|]. exfalso.
    pose proof (formatActivityData_blocks (d :: records) ltac:(discriminate)) as H.
    rewrite Heq in H. discriminate H.
  - intros Heq. destruct records as [|d records]; [reflexivity|]. exfalso.
    pose proof (formatStressData_blocks (d :: records) ltac:(discriminate)) as H.
    rewrite Heq in H. discriminate H.
Qed.

(** ** The setup check *)

Lemma truthy_token (tok : string) : tok <> "" -> truthy (Some tok) = true.
Proof. destruct tok; [congruence | reflexivity]. Qed.

Lemma executeCheckOuraSetup_thrown (tok : string) (fetch : Fetch PersonalInfoResponse)
    (e : Exn) :
  tok <> "" ->
  makeOuraRequest (Some tok) fetch "/usercollection/personal_info" [] = inl e ->
  executeCheckOuraSetup (Some tok) fetch
  = match e with
    | OuraAPIUserError _ userMessage => userMessage
    | OtherError _ => setupCheckFailedMessage
    end.
Proof.
  intros Htok Hthrow. unfold executeCheckOuraSetup.
  rewrite (truthy_token tok Htok). cbn [negb]. rewrite Hthrow. reflexivity.
Qed.

Lemma executeCheckOuraSetup_returned (tok : string)
    (fetch : Fetch PersonalInfoResponse) (personalInfo : PersonalInfoResponse) :
  tok <> "" ->
  makeOuraRequest (Some tok) fetch "/usercollection/personal_info" []
  = inr personalInfo ->
  executeCheckOuraSetup (Some tok) fetch
  = String.concat "" (setupCompletePieces personalInfo).
Proof.
  intros Htok Hret. unfold executeCheckOuraSetup.
  rewrite (truthy_token tok Htok). cbn [negb]. rewrite Hret. reflexivity.
Qed.

(** X16. The setup check returns its own [No Oura API token found] text
    when the token is unset or empty, the user-facing text of the status
    when the API answers outside 200-299, and the [Setup Check Failed]
    text when the transport fails. *)
Theorem X16_setup_check_failures :
  forall (fetch : Fetch PersonalInfoResponse),
    executeCheckOuraSetup None fetch = noTokenFoundMessage
    /\ executeCheckOuraSetup (Some "") fetch = noTokenFoundMessage
    /\ (forall tok response,
           tok <> "" ->
           fetch (requestFor tok "/usercollection/personal_info" []) = ret response ->
           response_ok response = false ->
           executeCheckOuraSetup (Some tok) fetch
           = statusUserMessage (response_status response))
    /\ (forall tok m,
           tok <> "" ->
           (fetch (requestFor tok "/usercollection/personal_info" [])
            = throw (OtherError m)
            \/ exists response,
                 fetch (requestFor tok "/usercollection/personal_info" [])
                 = ret response
                 /\ response_ok response = true
                 /\ response_json response = throw (OtherError m)) ->
           executeCheckOuraSetup (Some tok) fetch = setupCheckFailedMessage).
Proof.
  intros fetch. split; [reflexivity|]. split; [reflexivity|]. split.
  - intros tok response Htok Hfetch Hok.
    destruct (statusUserMessage_thrown tok fetch _ _ response Htok Hfetch Hok)
      as [message Hthrow].
    now rewrite (executeCheckOuraSetup_thrown tok fetch _ Htok Hthrow).
  - intros tok m Htok Hfail.
    pose proof (transport_failure_thrown tok fetch _ _ m Htok Hfail) as Hthrow.
    now rewrite (executeCheckOuraSetup_thrown tok fetch _ Htok Hthrow).
Qed.

Lemma setupCompleteHeader_lead (s : string) :
  has_prefix setupCompleteHeader s ->
  exists rest, s = String (ascii_of_nat 226) (String (ascii_of_nat 156)
                     (String (ascii_of_nat 133) rest)).
Proof. intros [rest ->]. eexists. reflexivity. Qed.

Lemma statusUserMessage_not_complete (status : Z) :
  ~ has_prefix setupCompleteHeader (statusUserMessage status).
Proof.
  intros H. apply setupCompleteHeader_lead in H. destruct H as [rest H].
  unfold statusUserMessage in H.
  destruct (status =? 401); [discriminate H|].
  destruct (status =? 403); [discriminate H|].
  destruct (status =? 429); discriminate H.
Qed.

Lemma fixed_texts_not_complete :
  ~ has_prefix setupCompleteHeader noTokenFoundMessage
  /\ ~ has_prefix setupCompleteHeader setupCheckFailedMessage.
Proof.
  split; intros H; apply setupCompleteHeader_lead in H; destruct H as [rest H];
    discriminate H.
Qed.

Lemma setupCompletePieces_prefix (personalInfo : PersonalInfoResponse) :
  has_prefix setupCompleteHeader (String.concat "" (setupCompletePieces personalInfo)).
Proof.
  unfold setupCompletePieces. rewrite concat_empty_sep. cbn [app fold_right].
  eexists. reflexivity.
Qed.

(** X17. Provided the transport rejects with nothing of the source's own
    error class, the setup check begins with [Oura API Setup Complete!]
    exactly when a token is configured and the personal-information
    endpoint answered 2xx with a readable body. *)
Theorem X17_setup_complete_only_after_success :
  forall (token : option string) (fetch : Fetch PersonalInfoResponse),
    transport_errors_only fetch ->
    (has_prefix setupCompleteHeader (executeCheckOuraSetup token fetch)
     <-> exists tok response personalInfo,
           token = Some tok /\ tok <> ""
           /\ fetch (requestFor tok "/usercollection/personal_info" []) = ret response
           /\ response_ok response = true
           /\ response_json response = ret personalInfo).
Proof.
  intros token fetch Htransport.
  destruct fixed_texts_not_complete as [Hnotoken Hfailed]. split.
  - intros Hprefix.
    destruct token as [tok|]; [|contradiction].
    destruct (string_dec tok "") as [-> | Htok]; [contradiction|].
    pose proof (Htransport (requestFor tok "/usercollection/personal_info" []))
      as Hreq.
    destruct (fetch (requestFor tok "/usercollection/personal_info" []))
      as [e|response] eqn:Hfetch.
    + destruct e as [message userMessage | m]; [contradiction|]. exfalso.
      rewrite (executeCheckOuraSetup_thrown tok fetch (OtherError m) Htok) in Hprefix;
        [contradiction|].
      now apply makeOuraRequest_fetch_throws.
    + destruct (response_ok response) eqn:Hok.
      * pose proof (makeOuraRequest_ok tok fetch _ [] response Htok Hfetch Hok)
          as Hrun.
        destruct (response_json response) as [e|personalInfo] eqn:Hjson.
        -- destruct e as [message userMessage | m]; [contradiction|]. exfalso.
           rewrite (executeCheckOuraSetup_thrown tok fetch (OtherError m) Htok Hrun)
             in Hprefix.
           contradiction.
        -- exists tok, response, personalInfo. auto.
      * exfalso.
        destruct (statusUserMessage_thrown tok fetch _ [] response Htok Hfetch Hok)
          as [message Hthrow].
        rewrite (executeCheckOuraSetup_thrown tok fetch _ Htok Hthrow) in Hprefix.
        exact (statusUserMessage_not_complete _ Hprefix).
  - intros (tok & response & personalInfo & -> & Htok & Hfetch & Hok & Hjson).
    pose proof (makeOuraRequest_ok tok fetch _ [] response Htok Hfetch Hok) as Hrun.
    rewrite Hjson in Hrun.
    rewrite (executeCheckOuraSetup_returned tok fetch personalInfo Htok Hrun).
    apply setupCompletePieces_prefix.
Qed.

(** ** The further statements at concrete inputs *)

Lemma X1_witness :
  exists message userMessage,
    makeOuraRequest (Some "secret")
      (respond 500 "Internal Server Error" (ret "boom") (ret 0%nat))
      "/usercollection/daily_sleep" []
    = throw (OuraAPIUserError message userMessage)
    /\ userMessage = apiErrorMessage 500.
Proof.
  destruct (X1_http_error_user_message nat "secret"
              (respond 500 "Internal Server Error" (ret "boom") (ret 0%nat))
              "/usercollection/daily_sleep" []
              {| response_status := 500;
                 response_statusText := "Internal Server Error";
                 response_text := ret "boom"; response_json := ret 0%nat |})
    as (message & userMessage & Hthrow & _ & _ & _ & Hother);
    [discriminate | reflexivity | reflexivity |].
  exists message, userMessage. split; [exact Hthrow|].
  apply Hother; simpl; lia.
Defined.

Lemma X2_witness :
  exists tok,
    Some "secret" = Some tok /\ tok <> ""
    /\ (@offline nat (requestFor tok "/usercollection/daily_sleep" [])
        = throw (OtherError "fetch failed")
        \/ exists response,
             @offline nat (requestFor tok "/usercollection/daily_sleep" [])
             = ret response
             /\ response_ok response = true
             /\ response_json response = throw (OtherError "fetch failed")).
Proof.
  apply (X2_other_errors_come_from_transport nat (Some "secret") offline
           "/usercollection/daily_sleep" [] "fetch failed").
  reflexivity.
Defined.

Lemma X3_witness :
  executeGetOuraSleepData formatSleepData unconfiguredWorld boundedArgs
  = setupRequiredMessage.
Proof.
  apply (X3_single_metric_missing_token formatSleepData formatActivityData
           formatStressData (fun _ => "") unconfiguredWorld boundedArgs).
  left. reflexivity.
Defined.

Lemma X4_witness :
  executeGetOuraStressData formatStressData throttledWorld boundedArgs
  = rateLimitMessage.
Proof.
  pose proof (X4_single_metric_http_error formatSleepData formatActivityData
                formatStressData (fun _ => "") throttledWorld boundedArgs "secret"
                eq_refl ltac:(discriminate)) as (_ & _ & Hstress & _).
  apply (Hstress {| response_status := 429;
                    response_statusText := "Too Many Requests";
                    response_text := ret "";
                    response_json := throw (OtherError "no body") |});
    reflexivity.
Defined.

Lemma X5_witness :
  executeGetOuraActivityData formatActivityData offlineWorld halfBoundedArgs
  = "❌ **Error**: Unable to fetch activity data. Please try again later.".
Proof.
  pose proof (X5_single_metric_transport_failure formatSleepData
                formatActivityData formatStressData (fun _ => "") offlineWorld
                halfBoundedArgs "secret" eq_refl ltac:(discriminate))
    as (_ & Hactivity & _ & _).
  apply (Hactivity "fetch failed"). left. reflexivity.
Defined.

Lemma X6_witness :
  executeGetOuraSleepData formatSleepData healthyWorld boundedArgs
  = formatSleepData threeNights.
Proof.
  pose proof (X6_single_metric_success formatSleepData formatActivityData
                formatStressData (fun _ => "") healthyWorld boundedArgs "secret"
                eq_refl ltac:(discriminate)) as (Hsleep & _).
  apply (Hsleep {| response_status := 200; response_statusText := "OK";
                   response_text := ret "";
                   response_json := ret (page threeNights) |} (page threeNights));
    reflexivity.
Defined.

Lemma X8_witness :
  exists avg,
    0 <= avg <= 100 /\
    sleepLine (fetched threeNights null)
    = "😴 **Sleep**: Average score " ++ toString avg ++ "/100 ("
      ++ toString (Z.of_nat (List.length threeNights)) ++ " days)" ++ LF.
Proof.
  apply (proj1 (X8_average_score_within_score_range 0 100) threeNights null).
  - intros d n [<- | [<- | [<- | []]]] Hscore; simpl in Hscore;
      try discriminate Hscore; injection Hscore as <-; lia.
  - simpl. discriminate.
Defined.

Lemma X9_witness :
  exists avgSteps,
    1000 <= avgSteps <= 3000 /\
    (activityLine (fetched twoWalks null)
     = "🏃 **Activity**: " ++ toLocaleString avgSteps
       ++ " avg steps/day (no scores available)" ++ LF
     \/ exists avgScore,
          activityLine (fetched twoWalks null)
          = "🏃 **Activity**: Average score " ++ toString avgScore ++ "/100, "
            ++ toLocaleString avgSteps ++ " avg steps/day" ++ LF).
Proof.
  apply (X9_average_steps_within_step_range twoWalks null 1000 3000).
  - simpl. discriminate.
  - intros d [<- | [<- | []]]; simpl; lia.
Defined.

Lemma X10_witness :
  sleepLine (fetched [sleepDoc (value 80); sleepDoc null] null)
  = sleepLine (fetched [sleepDoc null; sleepDoc (value 80)] (value "next")).
Proof.
  apply (proj1 X10_score_lines_ignore_record_order). apply perm_swap.
Defined.


Lemma X12_witness :
  stressLine (fetched [stressDoc (value 60) (value normal);
                       stressDoc (value 60) undefined] null)
  = "😰 **Stress**: "
    ++ toString (Math_round (mean [60%Z; 60%Z] / 60)%Q)
    ++ " avg minutes/day, mostly N/A" ++ LF.
Proof.
  apply (X12_absent_label_key_shows_NA
           [stressDoc (value 60) (value normal); stressDoc (value 60) undefined] null).
  - simpl. discriminate.
  - simpl. right. left. reflexivity.
Defined.

Lemma X13_witness :
  stressLine (fetched [stressDoc (value 60) null] null)
  = "😰 **Stress**: "
    ++ toString (Math_round (mean [60%Z] / 60)%Q)
    ++ " avg minutes/day, mostly N/A" ++ LF.
Proof.
  apply (X13_no_labels_shows_NA [stressDoc (value 60) null] null).
  - simpl. discriminate.
  - intros d [<- | []]. reflexivity.
Defined.

Lemma X14_witness :
  formatSleepData threeNights ++ LF ++ LF
  = "😴 **Sleep Summary**" ++ LF ++ LF
    ++ String.concat "" (map sleepBlock threeNights).
Proof.
  apply (proj1 X14_formatters_drop_only_the_last_blank_line threeNights).
  simpl. discriminate.
Defined.

Lemma X15_witness : formatStressData [] = noStressDataMessage.
Proof.
  apply (proj2 (proj2 X15_no_data_message_iff_empty) []). reflexivity.
Defined.

Lemma X16_witness :
  executeCheckOuraSetup (Some "secret")
    (respond 401 "Unauthorized" (ret "") (throw (OtherError "no body")))
  = authenticationFailedMessage.
Proof.
  apply (proj1 (proj2 (proj2 (X16_setup_check_failures
           (respond 401 "Unauthorized" (ret "") (throw (OtherError "no body"))))))
           "secret"
           {| response_status := 401; response_statusText := "Unauthorized";
              response_text := ret "";
              response_json := throw (OtherError "no body") |});
    [discriminate | reflexivity | reflexivity].
Defined.

Lemma X17_witness :
  has_prefix setupCompleteHeader
    (executeCheckOuraSetup (Some "secret")
       (respond 200 "OK" (ret "") (ret someAccount))).
Proof.
  apply (X17_setup_complete_only_after_success (Some "secret")
           (respond 200 "OK" (ret "") (ret someAccount))).
  - intros request. simpl. exact I.
  - exists "secret",
      {| response_status := 200; response_statusText := "OK";
         response_text := ret ""; response_json := ret someAccount |},
      someAccount.
    repeat split. discriminate.
Defined.
